(** * ET-Physics-Toolbox: the report upload server (server.py)

    A shallow embedding of [server.py], the Flask application that receives
    diagnostic reports, and the properties of its upload handler.

    Conventions of the model.
    - A Python [str] is a list of Unicode code points ([pystr]).
    - The tables of the Unicode database that Python consults
      ([unicodedata.normalize], [str.lower] outside ASCII) are a parameter,
      the class [UnicodeData]; everything on ASCII text is computed.
    - The process runs on a POSIX platform: [os.sep] is "/", there is no
      [os.path.altsep], [os.name] is "posix", text files keep their line ends.
    - The handler runs in a state-and-exception monad over the file system
      and a log of the operations it performed; operations of the operating
      system and of the zip library are answered by an environment [Env]
      (clock, I/O errors, archive probe, standard output). *)

From stdpp Require Import base option list gmap strings.
From Stdlib Require Import NArith Ascii String Lia.
From Stdlib.Init Require Import Byte.

Local Open Scope N_scope.
Local Open Scope list_scope.

(** ** Python strings *)

Abbreviation pystr := (list N).

(** A Rocq string literal as a Python [str] (one code point per character). *)
Definition u (s : string) : pystr := map N_of_ascii (list_ascii_of_string s).

Definition is_ascii (c : N) : bool := c <? 128.
Definition is_upper (c : N) : bool := (65 <=? c) && (c <=? 90).
Definition is_lower (c : N) : bool := (97 <=? c) && (c <=? 122).
Definition is_digit (c : N) : bool := (48 <=? c) && (c <=? 57).

Definition ascii_lower (c : N) : N := if is_upper c then c + 32 else c.
Definition ascii_upper (c : N) : N := if is_lower c then c - 32 else c.

(** [str.isspace] on ASCII: TAB, LF, VT, FF, CR, FS, GS, RS, US and space. *)
Definition is_space (c : N) : bool :=
  ((9 <=? c) && (c <=? 13)) || ((28 <=? c) && (c <=? 32)).

Definition pystr_eqb (a b : pystr) : bool := bool_decide (a = b).

(** The Unicode database.  [unicode_nfkd] is [unicodedata.normalize("NFKD", _)]
    and [unicode_lower] is [str.lower]; both are only consulted on strings
    that hold a code point outside ASCII.  The two laws are facts of the
    Unicode tables: an ASCII code point is a starter that decomposes to
    itself, so it stays at the end of the normal form; and the lower case of
    a code point outside ASCII contains a code point outside ASCII, but for
    the Kelvin sign U+212A, whose lower case is "k". *)
Class UnicodeData := {
  unicode_nfkd : pystr → pystr;
  unicode_lower : pystr → pystr;
  unicode_nfkd_snoc : ∀ s c,
    c < 128 → unicode_nfkd (s ++ [c]) = unicode_nfkd s ++ [c];
  unicode_lower_marks : ∀ s c,
    c ∈ s → 128 ≤ c → ∃ d, d ∈ unicode_lower s ∧ (128 ≤ d ∨ d = 107)
}.

Section Text.
Context {U : UnicodeData}.

(** [s.lower()] *)
Definition str_lower (s : pystr) : pystr :=
  if forallb is_ascii s then map ascii_lower s else unicode_lower s.

(** [unicodedata.normalize("NFKD", s)] *)
Definition normalize_NFKD (s : pystr) : pystr :=
  if forallb is_ascii s then s else unicode_nfkd s.

End Text.

(** [s.upper()] on a string known to be ASCII. *)
Definition ascii_str_upper (s : pystr) : pystr := map ascii_upper s.

(** [s.encode("ascii", "ignore").decode("ascii")] *)
Definition encode_ascii_ignore (s : pystr) : pystr := List.filter is_ascii s.

(** [s.replace(old, new)] for one-character [old] and [new]. *)
Definition str_replace (old new : N) (s : pystr) : pystr :=
  map (λ c, if c =? old then new else c) s.

(** [s.split()] : the maximal runs without white space. *)
Fixpoint split_from (word s : pystr) : list pystr :=
  match s with
  | [] => match word with [] => [] | _ => [word] end
  | c :: rest =>
      if is_space c
      then match word with
           | [] => split_from [] rest
           | _ => word :: split_from [] rest
           end
      else split_from (word ++ [c]) rest
  end.

Definition str_split (s : pystr) : list pystr := split_from [] s.

(** [sep.join(words)] *)
Fixpoint str_join (sep : pystr) (words : list pystr) : pystr :=
  match words with
  | [] => []
  | [w] => w
  | w :: rest => w ++ sep ++ str_join sep rest
  end.

(** [s.lstrip(chars)], [s.rstrip(chars)], [s.strip(chars)] *)
Fixpoint str_lstrip (chars s : pystr) : pystr :=
  match s with
  | [] => []
  | c :: rest => if bool_decide (c ∈ chars) then str_lstrip chars rest else s
  end.

Definition str_rstrip (chars s : pystr) : pystr :=
  rev (str_lstrip chars (rev s)).

Definition str_strip (chars s : pystr) : pystr :=
  str_rstrip chars (str_lstrip chars s).

(** [s.startswith(p)], [s.endswith(p)] *)
Fixpoint str_startswith (s p : pystr) {struct p} : bool :=
  match p, s with
  | [], _ => true
  | _ :: _, [] => false
  | a :: p', b :: s' => (a =? b) && str_startswith s' p'
  end.

Definition str_endswith (s p : pystr) : bool := str_startswith (rev s) (rev p).

(** [c in s] *)
Definition str_contains (c : N) (s : pystr) : bool := existsb (N.eqb c) s.

(** The text before the first [sep], and the text after it when there is one. *)
Fixpoint break_at (sep : N) (s : pystr) : pystr * option pystr :=
  match s with
  | [] => ([], None)
  | c :: rest =>
      if c =? sep then ([], Some rest)
      else let '(a, b) := break_at sep rest in (c :: a, b)
  end.

(** [s.rsplit(sep, 1)] *)
Definition str_rsplit1 (sep : N) (s : pystr) : list pystr :=
  match break_at sep (rev s) with
  | (a, Some b) => [rev b; rev a]
  | (_, None) => [s]
  end.

(** [s.split(sep)[0]] *)
Definition str_split_first (sep : N) (s : pystr) : pystr := fst (break_at sep s).

(** ** The platform ([os], [os.path]) *)

Module os.
Definition name : pystr := u "posix".
Definition sep : N := 47.
Definition altsep : option N := None.

(** [os.path.join(a, b)] of [posixpath]. *)
Definition path_join (a b : pystr) : pystr :=
  if str_startswith b [sep] then b
  else if pystr_eqb a [] || str_endswith a [sep] then a ++ b
  else a ++ [sep] ++ b.
End os.

(** ** werkzeug.utils.secure_filename

    The library function the handler calls to sanitize the client's file
    name, after its implementation in werkzeug/utils.py. *)

(** [_filename_ascii_strip_re = re.compile(r"[^A-Za-z0-9_.-]")]: the code
    points the expression leaves in place. *)
Definition filename_ascii_keep (c : N) : bool :=
  is_upper c || is_lower c || is_digit c
  || (c =? 95) || (c =? 46) || (c =? 45).

Definition _windows_device_files : list pystr :=
  map u ["CON"; "PRN"; "AUX"; "NUL";
         "COM0"; "COM1"; "COM2"; "COM3"; "COM4";
         "COM5"; "COM6"; "COM7"; "COM8"; "COM9";
         "LPT0"; "LPT1"; "LPT2"; "LPT3"; "LPT4";
         "LPT5"; "LPT6"; "LPT7"; "LPT8"; "LPT9"]%string.

Section Werkzeug.
Context {U : UnicodeData}.

Definition secure_filename (filename : pystr) : pystr :=
  let filename := normalize_NFKD filename in
  let filename := encode_ascii_ignore filename in
  (* for sep in os.sep, os.path.altsep: if sep: replace(sep, " ") *)
  let filename :=
    fold_left (λ name sep,
                 match sep with
                 | Some c => str_replace c 32 name
                 | None => name
                 end)
              [Some os.sep; os.altsep] filename in
  let filename :=
    str_strip (u "._")
      (List.filter filename_ascii_keep (str_join (u "_") (str_split filename))) in
  if pystr_eqb os.name (u "nt")
     && negb (pystr_eqb filename [])
     && bool_decide (ascii_str_upper (str_split_first 46 filename)
                       ∈ _windows_device_files)
  then u "_" ++ filename
  else filename.

End Werkzeug.

(** ** Configuration of server.py *)

Definition UPLOAD_FOLDER : pystr := u "received_reports".
Definition ALLOWED_EXTENSIONS : list pystr := [u "zip"; u "csv"].

(** [app.config['MAX_CONTENT_LENGTH']]: Flask refuses a longer body when the
    form data is read. *)
Definition MAX_CONTENT_LENGTH : N := 16 * 1024 * 1024.

(** [os.environ.get("ET_API_KEY", "CHANGE_ME_IN_PROD")] *)
Definition API_KEY (ET_API_KEY : option pystr) : pystr :=
  default (u "CHANGE_ME_IN_PROD") ET_API_KEY.

Section AllowedFile.
Context {U : UnicodeData}.

(** [allowed_file]: the index [1] exists because of the test for a dot. *)
Definition allowed_file (filename : pystr) : bool :=
  str_contains 46 filename
  && match str_rsplit1 46 filename !! 1%nat with
     | Some ext => bool_decide (str_lower ext ∈ ALLOWED_EXTENSIONS)
     | None => false
     end.

End AllowedFile.

(** ** Time ([datetime])

    A reading of the clock; the fields are in the ranges of a Python
    [datetime] (year 1..9999, month 1..12, ...). *)

Record datetime := {
  year : N; month : N; day : N;
  hour : N; minute : N; second : N
}.

Definition digit (n : N) : N := 48 + n mod 10.
Definition zero_pad2 (n : N) : pystr := [digit (n / 10); digit n].
Definition zero_pad4 (n : N) : pystr :=
  [digit (n / 1000); digit (n / 100); digit (n / 10); digit n].

(** [t.strftime("%Y-%m-%d")] *)
Definition strftime_Ymd (t : datetime) : pystr :=
  zero_pad4 (year t) ++ u "-" ++ zero_pad2 (month t) ++ u "-" ++ zero_pad2 (day t).

(** [t.strftime("%H%M%S")] *)
Definition strftime_HMS (t : datetime) : pystr :=
  zero_pad2 (hour t) ++ zero_pad2 (minute t) ++ zero_pad2 (second t).

(** ** The file system and the world of a request *)

(** What a file holds: the bytes written in binary mode, or the text written
    through a text-mode file opened with [encoding="utf-8"] (standing for
    its UTF-8 encoding). *)
Inductive content :=
  | Bytes (data : list byte)
  | Utf8Text (text : pystr).

Record filesystem := {
  dirs : gset pystr;
  files : gmap pystr content
}.

(** The operations the process performs on the outside, in order. *)
Inductive event :=
  | EvExists (path : pystr)
  | EvMakedirs (path : pystr)
  | EvSave (path : pystr) (data : list byte)
  | EvZipOpen (path : pystr)
  | EvWriteText (path : pystr) (text : pystr)
  | EvPrint (line : pystr).

Record World := {
  fs : filesystem;
  ticks : nat;          (* number of readings of the clock so far *)
  log : list event
}.

Inductive exn :=
  | RequestEntityTooLarge   (* 413: body over MAX_CONTENT_LENGTH *)
  | ClientDisconnected      (* 400: the body ended early *)
  | OSError
  | BadZipFile
  | ValueError.             (* I/O operation on closed file *)

(** The operations that write, as the environment sees them. *)
Inductive fs_op :=
  | OpMakedirs (path : pystr)
  | OpSave (path : pystr)
  | OpWriteText (path : pystr).

(** The answer of the operating system to a write: it succeeds, or it raises
    and leaves [left] at the path ([None]: the path is as it was). *)
Inductive io_outcome :=
  | IoOk
  | IoError (left : option content).

(** The answer of [zipfile] for the file at a path: opening or testing
    raises, [testzip()] names a bad member, or the archive is intact. *)
Inductive zip_result :=
  | ZipRaises
  | ZipBadMember (member : pystr)
  | ZipIntact.

(** Everything outside the program.  [stdout] is the answer of the standard
    output to a line: [None] when the line is written, [Some e] when
    [print] raises [e] ([ValueError] on a closed stream, [OSError] on a
    broken pipe or a lost terminal). *)
Record Env := {
  ET_API_KEY : option pystr;                         (* os.environ *)
  clock : nat → datetime;                            (* n-th datetime.now() *)
  io : fs_op → io_outcome;
  zip_probe : pystr → option content → zip_result;
  stdout : pystr → option exn
}.

(** ** The request, as Flask hands it to a view *)

(** [werkzeug.datastructures.FileStorage]: the client's file name and the
    buffered body of the part. *)
Record FileStorage := {
  filename : pystr;
  stream : list byte
}.

(** [bool(file)] is [bool(file.filename)]. *)
Definition FileStorage_bool (file : FileStorage) : bool :=
  negb (pystr_eqb (filename file) []).

(** The parsed multipart body: [request.files.get("file")] and
    [request.form.get("description")]. *)
Record FormData := {
  file_part : option FileStorage;
  description_field : option pystr
}.

(** Flask reads the body when [request.files] is first touched, and buffers
    each part to its end.  A body that is not received whole (longer than
    [MAX_CONTENT_LENGTH], connection lost) makes that access raise. *)
Inductive received :=
  | Complete (form : FormData)
  | Aborted (e : exn).

Record Request := {
  auth_token : option pystr;       (* request.headers.get('X-ET-AUTH-TOKEN') *)
  body : received
}.

(** [jsonify(...), status] *)
Record Response := {
  payload : list (string * string);
  status_code : N
}.

Definition jsonify (key value : string) (code : N) : Response :=
  {| payload := [(key, value)]; status_code := code |}.

(** ** The monad of a view: state and exceptions *)

Inductive outcome (A : Type) :=
  | Done (a : A)
  | Raised (e : exn).
Arguments Done {A} a.
Arguments Raised {A} e.

Definition M (A : Type) : Type := World → outcome A * World.

Definition ret {A} (a : A) : M A := λ w, (Done a, w).
Definition raise {A} (e : exn) : M A := λ w, (Raised e, w).
Definition bind {A B} (m : M A) (k : A → M B) : M B :=
  λ w, match m w with
       | (Done a, w') => k a w'
       | (Raised e, w') => (Raised e, w')
       end.

(** [try: m except: handler] *)
Definition try_except {A} (m : M A) (handler : exn → M A) : M A :=
  λ w, match m w with
       | (Done a, w') => (Done a, w')
       | (Raised e, w') => handler e w'
       end.

#[export] Instance M_ret : MRet M := @ret.
#[export] Instance M_bind : MBind M := λ A B k m, bind m k.

Definition emit (e : event) (w : World) : World :=
  {| fs := fs w; ticks := ticks w; log := log w ++ [e] |}.

Definition set_fs (f : filesystem) (w : World) : World :=
  {| fs := f; ticks := ticks w; log := log w |}.

Definition put_file (path : pystr) (c : content) (f : filesystem) : filesystem :=
  {| dirs := dirs f; files := <[path := c]> (files f) |}.

(** The directories above a path: its prefixes before a separator. *)
Fixpoint ancestors_from (seen path : pystr) : list pystr :=
  match path with
  | [] => []
  | c :: rest =>
      if c =? os.sep
      then match seen with
           | [] => ancestors_from [c] rest
           | _ => seen :: ancestors_from (seen ++ [c]) rest
           end
      else ancestors_from (seen ++ [c]) rest
  end.

Definition add_dirs (path : pystr) (f : filesystem) : filesystem :=
  {| dirs := dirs f ∪ list_to_set (path :: ancestors_from [] path);
     files := files f |}.

(** ** Start of the process *)

Definition HOST : pystr := u "0.0.0.0".
Definition PORT : N := 5000.

(** The arguments of [app.run(host=..., port=..., ssl_context=...)]; the
    model of the main block ends with the call. *)
Record run_config := {
  run_host : pystr;
  run_port : N;
  ssl_context : option (pystr * pystr)
}.

Section Server.
Context {U : UnicodeData}.
Variable env : Env.

(** [datetime.datetime.now()] *)
Definition datetime_now : M datetime :=
  λ w, (Done (clock env (ticks w)),
        {| fs := fs w; ticks := S (ticks w); log := log w |}).

(** [os.path.exists(path)] *)
Definition os_path_exists (path : pystr) : M bool :=
  λ w, (Done (bool_decide (path ∈ dirs (fs w))
              || bool_decide (is_Some (files (fs w) !! path))),
        emit (EvExists path) w).

(** [os.makedirs(path)] *)
Definition os_makedirs (path : pystr) : M unit :=
  λ w, let w := emit (EvMakedirs path) w in
       match io env (OpMakedirs path) with
       | IoOk => (Done (), set_fs (add_dirs path (fs w)) w)
       | IoError _ => (Raised OSError, w)
       end.

(** A write of [c] at [path], answered by the environment. *)
Definition write_at (op : fs_op) (path : pystr) (c : content) : M unit :=
  λ w, match io env op with
       | IoOk => (Done (), set_fs (put_file path c (fs w)) w)
       | IoError (Some partial) =>
           (Raised OSError, set_fs (put_file path partial (fs w)) w)
       | IoError None => (Raised OSError, w)
       end.

(** [file.save(path)]: copies the buffered stream to [path]. *)
Definition file_save (file : FileStorage) (path : pystr) : M unit :=
  λ w, write_at (OpSave path) path (Bytes (stream file))
                (emit (EvSave path (stream file)) w).

(** [with zipfile.ZipFile(path, 'r') as zip_ref: zip_ref.testzip()] *)
Definition ZipFile_testzip (path : pystr) : M (option pystr) :=
  λ w, let w := emit (EvZipOpen path) w in
       match zip_probe env path (files (fs w) !! path) with
       | ZipRaises => (Raised BadZipFile, w)
       | ZipBadMember m => (Done (Some m), w)
       | ZipIntact => (Done None, w)
       end.

(** [with open(path, "w", encoding="utf-8") as f: f.write(text)] *)
Definition open_write (path text : pystr) : M unit :=
  λ w, write_at (OpWriteText path) path (Utf8Text text)
                (emit (EvWriteText path text) w).

(** [print(line)]: the line is written, or the standard output raises and
    nothing is recorded. *)
Definition print (line : pystr) : M unit :=
  λ w, match stdout env line with
       | None => (Done (), emit (EvPrint line) w)
       | Some e => (Raised e, w)
       end.

(** [request.files], [request.form]: the parsed body, or the exception of
    the parser. *)
Definition request_files (request : Request) : M FormData :=
  match body request with
  | Complete form => ret form
  | Aborted e => raise e
  end.

(** Module level: [if not os.path.exists(UPLOAD_FOLDER): os.makedirs(...)] *)
Definition startup : M unit :=
  found ← os_path_exists UPLOAD_FOLDER;
  if negb found then os_makedirs UPLOAD_FOLDER else ret ().

Definition check_auth (request : Request) : bool :=
  let token := auth_token request in
  bool_decide (token = Some (API_KEY (ET_API_KEY env))).

(** [GET /api/v1/status] *)
Definition status : M Response :=
  mret {| payload := [("status", "online"); ("server", "ET-Diagnostic-Node-v9")]%string;
          status_code := 200 |}.

(** [POST /api/v1/upload].  The zip test yields the response of an early
    [return], or [None] to go on. *)
Definition upload_file (request : Request) : M Response :=
  if negb (check_auth request) then
    mret (jsonify "error" "Unauthorized" 401)
  else
    form ← request_files request;
    match file_part form with
    | None => mret (jsonify "error" "No file part" 400)
    | Some file =>
        let description := default [] (description_field form) in
        if pystr_eqb (filename file) [] then
          mret (jsonify "error" "No selected file" 400)
        else if FileStorage_bool file && allowed_file (filename file) then
          now ← datetime_now;
          let date_str := strftime_Ymd now in
          let daily_folder := os.path_join UPLOAD_FOLDER date_str in
          found ← os_path_exists daily_folder;
          (if negb found then os_makedirs daily_folder else mret ());;
          let filename := secure_filename (filename file) in
          now ← datetime_now;
          let timestamp := strftime_HMS now in
          let save_path :=
            os.path_join daily_folder (timestamp ++ u "_" ++ filename) in
          file_save file save_path;;
          early ←
            (if str_endswith filename (u ".zip") then
               try_except
                 (bad ← ZipFile_testzip save_path;
                  match bad with
                  | Some _ => mret (Some (jsonify "error" "Corrupted ZIP" 400))
                  | None => mret None
                  end)
                 (λ _, mret (Some (jsonify "error" "Invalid ZIP" 400)))
             else mret None);
          match early with
          | Some response => mret response
          | None =>
              (if negb (pystr_eqb description []) then
                 let desc_path :=
                   os.path_join daily_folder (timestamp ++ u "_desc.txt") in
                 open_write desc_path description
               else mret ());;
              print (u "[SUCCESS] Report received: " ++ save_path);;
              mret (jsonify "message" "Secure upload successful" 201)
          end
        else
          mret (jsonify "error" "Invalid file type" 400)
    end.

(** [if __name__ == '__main__': ...] *)
Definition main : M run_config :=
  print (u "[*] ET Secure Server v9.0. API Key Active: "
           ++ (if negb (pystr_eqb (API_KEY (ET_API_KEY env))
                          (u "CHANGE_ME_IN_PROD"))
               then u "YES" else u "NO"));;
  cert ← os_path_exists (u "cert.pem");
  both ← (if (cert : bool) then os_path_exists (u "key.pem") else mret false);
  if (both : bool) then
    (print (u "[*] SSL Context Loaded. Serving HTTPS.");;
     mret {| run_host := HOST; run_port := PORT;
             ssl_context := Some (u "cert.pem", u "key.pem") |} : M run_config)
  else
    (print (u "[!] WARNING: SSL Certs not found. Serving HTTP (Insecure).");;
     mret {| run_host := HOST; run_port := PORT; ssl_context := None |}).

End Server.

(** * The vocabulary of the properties *)

(** ** Text and tables *)

(** Letters and digits: the code points every step of the sanitizer keeps. *)
Definition is_alnum (c : N) : bool := is_upper c || is_lower c || is_digit c.

(** The tables cut down to ASCII text: code points outside ASCII are left
    as they are.  The model consults the tables only on strings with a code
    point outside ASCII, so on a request in ASCII every instance gives the
    run of this one. *)
Definition ascii_tables : UnicodeData.
Proof.
  refine {| unicode_nfkd := λ s, s;
            unicode_lower := λ s, map ascii_lower s;
            unicode_nfkd_snoc := λ s c _, eq_refl |}.
  intros s c Hin Hc. exists c. split; [|by left].
  apply list_elem_of_fmap. exists c. split; [|done].
  unfold ascii_lower, is_upper.
  destruct (65 <=? c) eqn:E1; destruct (c <=? 90) eqn:E2; simpl; try done.
  apply N.leb_le in E2. lia.
Defined.

(** ** Events of a run *)

(** The reports a run saved, in order. *)
Definition saved_reports (events : list event) : list (pystr * list byte) :=
  omap (λ e, match e with EvSave p data => Some (p, data) | _ => None end) events.

(** The descriptions a run wrote, in order. *)
Definition written_descriptions (events : list event) : list (pystr * pystr) :=
  omap (λ e, match e with EvWriteText p text => Some (p, text) | _ => None end)
       events.

(** The archives a run opened, in order. *)
Definition opened_archives (events : list event) : list pystr :=
  omap (λ e, match e with EvZipOpen p => Some p | _ => None end) events.

(** The directories a run made, in order. *)
Definition made_dirs (events : list event) : list pystr :=
  omap (λ e, match e with EvMakedirs p => Some p | _ => None end) events.

(** The paths a run looked up, in order. *)
Definition looked_up (events : list event) : list pystr :=
  omap (λ e, match e with EvExists p => Some p | _ => None end) events.

(** The lines a run printed, in order. *)
Definition printed (events : list event) : list pystr :=
  omap (λ e, match e with EvPrint l => Some l | _ => None end) events.

(** [os.path.exists(path)] on a file system. *)
Definition exists_on (f : filesystem) (path : pystr) : bool :=
  bool_decide (path ∈ dirs f) || bool_decide (is_Some (files f !! path)).

(** A string that [strip(chars)] leaves as it is: it neither starts nor ends
    with one of [chars]. *)
Definition stripped (chars s : pystr) : Prop :=
  (∀ c r, s = c :: r → c ∉ chars) ∧ (∀ c r, s = r ++ [c] → c ∉ chars).

(** A reading of the clock in the ranges of a Python [datetime]. *)
Definition in_range (t : datetime) : Prop :=
  year t < 10000 ∧ month t < 100 ∧ day t < 100
  ∧ hour t < 100 ∧ minute t < 100 ∧ second t < 100.

(** ** A world, an environment and requests to run the handler on *)

Definition demo_world : World :=
  {| fs := {| dirs := {[ UPLOAD_FOLDER ]}; files := ∅ |}; ticks := 0; log := [] |}.

Definition demo_clock (n : nat) : datetime :=
  {| year := 2024; month := 3; day := 7; hour := 9; minute := 5; second := 59 |}.

Definition demo_env (answer : fs_op → io_outcome) (probe : zip_result) : Env :=
  {| ET_API_KEY := Some (u "s3cret"); clock := demo_clock;
     io := answer; zip_probe := λ _ _, probe; stdout := λ _, None |}.


Definition demo_request (token : option pystr) (form : FormData) : Request :=
  {| auth_token := token; body := Complete form |}.

Definition demo_form (name description : string) : FormData :=
  {| file_part := Some {| filename := u name; stream := [x50; x4b]%byte |};
     description_field := Some (u description) |}.

Definition all_ok : fs_op → io_outcome := λ _, IoOk.

(** The write of the description raises and leaves nothing. *)
Definition description_fails : fs_op → io_outcome :=
  λ op, match op with OpWriteText _ => IoError None | _ => IoOk end.

Definition secret : option pystr := Some (u "s3cret").

Section Upload.
Context {U : UnicodeData}.
Variable env : Env.

(** ** Requests, paths and runs *)

Definition authenticated (request : Request) : Prop :=
  auth_token request = Some (API_KEY (ET_API_KEY env)).

(** [{root}/{YYYY-MM-DD}]: the date of the first reading of the clock. *)
Definition daily_folder (w : World) : pystr :=
  UPLOAD_FOLDER ++ [os.sep] ++ strftime_Ymd (clock env (ticks w)).

(** [HHMMSS]: the time of the second reading of the clock. *)
Definition timestamp (w : World) : pystr :=
  strftime_HMS (clock env (S (ticks w))).

(** [{root}/{YYYY-MM-DD}/{HHMMSS}_{sanitized-filename}] *)
Definition save_path (file : FileStorage) (w : World) : pystr :=
  daily_folder w ++ [os.sep]
    ++ timestamp w ++ u "_" ++ secure_filename (filename file).

(** [{root}/{YYYY-MM-DD}/{HHMMSS}_desc.txt] *)
Definition desc_path (w : World) : pystr :=
  daily_folder w ++ [os.sep] ++ timestamp w ++ u "_desc.txt".

(** [os.path.exists(daily_folder)] in a world. *)
Definition folder_found (w : World) : bool :=
  bool_decide (daily_folder w ∈ dirs (fs w))
  || bool_decide (is_Some (files (fs w) !! daily_folder w)).

(** The folder step: the file system and the events after it, or [None]
    when [os.makedirs] raises. *)
Definition folder_step (w : World) : option (filesystem * list event) :=
  if folder_found w then Some (fs w, [EvExists (daily_folder w)])
  else match io env (OpMakedirs (daily_folder w)) with
       | IoOk => Some (add_dirs (daily_folder w) (fs w),
                       [EvExists (daily_folder w); EvMakedirs (daily_folder w)])
       | IoError _ => None
       end.

(** What a write that raised leaves behind. *)
Definition left_behind (path : pystr) (left : option content)
    (f : filesystem) : filesystem :=
  match left with
  | Some partial => put_file path partial f
  | None => f
  end.

(** The world [n] readings of the clock and some events later. *)
Definition later (w : World) (f : filesystem) (n : nat)
    (events : list event) : World :=
  {| fs := f; ticks := n + ticks w; log := log w ++ events |}.

(** The archive test: its events and its verdict on the stored report. *)
Definition zip_events (file : FileStorage) (w : World) : list event :=
  if str_endswith (secure_filename (filename file)) (u ".zip")
  then [EvZipOpen (save_path file w)] else [].

Definition zip_verdict (file : FileStorage) (w : World) : zip_result :=
  if str_endswith (secure_filename (filename file)) (u ".zip")
  then zip_probe env (save_path file w) (Some (Bytes (stream file)))
  else ZipIntact.

Definition zip_error (r : zip_result) : string :=
  match r with
  | ZipBadMember _ => "Corrupted ZIP"
  | _ => "Invalid ZIP"
  end.

(** Once a request is past the checks, the handler stores the report.  The
    relation [stored] lists the ways such a run ends, each with the answers
    of the environment that lead to it and with the world it leaves. *)
Inductive stored (file : FileStorage) (description : pystr) (w : World) :
    outcome Response * World → Prop :=
  | stored_makedirs_raises :
      folder_step w = None →
      stored file description w
        (Raised OSError,
         later w (fs w) 1 [EvExists (daily_folder w); EvMakedirs (daily_folder w)])
  | stored_save_raises f0 ev0 left :
      folder_step w = Some (f0, ev0) →
      io env (OpSave (save_path file w)) = IoError left →
      stored file description w
        (Raised OSError,
         later w (left_behind (save_path file w) left f0) 2
           (ev0 ++ [EvSave (save_path file w) (stream file)]))
  | stored_zip_rejected f0 ev0 :
      folder_step w = Some (f0, ev0) →
      io env (OpSave (save_path file w)) = IoOk →
      zip_verdict file w ≠ ZipIntact →
      stored file description w
        (Done (jsonify "error" (zip_error (zip_verdict file w)) 400),
         later w (put_file (save_path file w) (Bytes (stream file)) f0) 2
           (ev0 ++ [EvSave (save_path file w) (stream file);
                    EvZipOpen (save_path file w)]))
  | stored_desc_raises f0 ev0 left :
      folder_step w = Some (f0, ev0) →
      io env (OpSave (save_path file w)) = IoOk →
      zip_verdict file w = ZipIntact →
      description ≠ [] →
      io env (OpWriteText (desc_path w)) = IoError left →
      stored file description w
        (Raised OSError,
         later w
           (left_behind (desc_path w) left
              (put_file (save_path file w) (Bytes (stream file)) f0)) 2
           (ev0 ++ [EvSave (save_path file w) (stream file)]
                ++ zip_events file w
                ++ [EvWriteText (desc_path w) description]))
  | stored_with_description f0 ev0 :
      folder_step w = Some (f0, ev0) →
      io env (OpSave (save_path file w)) = IoOk →
      zip_verdict file w = ZipIntact →
      description ≠ [] →
      io env (OpWriteText (desc_path w)) = IoOk →
      stdout env (u "[SUCCESS] Report received: " ++ save_path file w) = None →
      stored file description w
        (Done (jsonify "message" "Secure upload successful" 201),
         later w
           (put_file (desc_path w) (Utf8Text description)
              (put_file (save_path file w) (Bytes (stream file)) f0)) 2
           (ev0 ++ [EvSave (save_path file w) (stream file)]
                ++ zip_events file w
                ++ [EvWriteText (desc_path w) description;
                    EvPrint (u "[SUCCESS] Report received: "
                               ++ save_path file w)]))
  | stored_plain f0 ev0 :
      folder_step w = Some (f0, ev0) →
      io env (OpSave (save_path file w)) = IoOk →
      zip_verdict file w = ZipIntact →
      description = [] →
      stdout env (u "[SUCCESS] Report received: " ++ save_path file w) = None →
      stored file description w
        (Done (jsonify "message" "Secure upload successful" 201),
         later w (put_file (save_path file w) (Bytes (stream file)) f0) 2
           (ev0 ++ [EvSave (save_path file w) (stream file)]
                ++ zip_events file w
                ++ [EvPrint (u "[SUCCESS] Report received: "
                               ++ save_path file w)]))
  | stored_print_raises_with_description f0 ev0 e :
      folder_step w = Some (f0, ev0) →
      io env (OpSave (save_path file w)) = IoOk →
      zip_verdict file w = ZipIntact →
      description ≠ [] →
      io env (OpWriteText (desc_path w)) = IoOk →
      stdout env (u "[SUCCESS] Report received: " ++ save_path file w)
        = Some e →
      stored file description w
        (Raised e,
         later w
           (put_file (desc_path w) (Utf8Text description)
              (put_file (save_path file w) (Bytes (stream file)) f0)) 2
           (ev0 ++ [EvSave (save_path file w) (stream file)]
                ++ zip_events file w
                ++ [EvWriteText (desc_path w) description]))
  | stored_print_raises_plain f0 ev0 e :
      folder_step w = Some (f0, ev0) →
      io env (OpSave (save_path file w)) = IoOk →
      zip_verdict file w = ZipIntact →
      description = [] →
      stdout env (u "[SUCCESS] Report received: " ++ save_path file w)
        = Some e →
      stored file description w
        (Raised e,
         later w (put_file (save_path file w) (Bytes (stream file)) f0) 2
           (ev0 ++ [EvSave (save_path file w) (stream file)]
                ++ zip_events file w)).

(** The report is written: neither [os.makedirs] nor [file.save] raises. *)
Definition report_written (file : FileStorage) (w : World) : Prop :=
  folder_step w ≠ None ∧ io env (OpSave (save_path file w)) = IoOk.

(** The ways a request is turned away before anything is stored, each with
    the outcome of the run. *)
Inductive rejected (request : Request) : outcome Response → Prop :=
  | rejected_unauthorized :
      ¬ authenticated request →
      rejected request (Done (jsonify "error" "Unauthorized" 401))
  | rejected_aborted e :
      authenticated request →
      body request = Aborted e →
      rejected request (Raised e)
  | rejected_no_file form :
      authenticated request →
      body request = Complete form →
      file_part form = None →
      rejected request (Done (jsonify "error" "No file part" 400))
  | rejected_no_name form file :
      authenticated request →
      body request = Complete form →
      file_part form = Some file →
      filename file = [] →
      rejected request (Done (jsonify "error" "No selected file" 400))
  | rejected_type form file :
      authenticated request →
      body request = Complete form →
      file_part form = Some file →
      filename file ≠ [] →
      allowed_file (filename file) = false →
      rejected request (Done (jsonify "error" "Invalid file type" 400)).

(** The responses the handler has. *)
Definition responses : list Response :=
  [jsonify "error" "Unauthorized" 401;
   jsonify "error" "No file part" 400;
   jsonify "error" "No selected file" 400;
   jsonify "error" "Invalid file type" 400;
   jsonify "error" "Corrupted ZIP" 400;
   jsonify "error" "Invalid ZIP" 400;
   jsonify "message" "Secure upload successful" 201].

(** * Properties *)

(** ** Characters *)

Lemma alnum_bounds (c : N) :
  is_alnum c = true →
  (65 ≤ c ∧ c ≤ 90) ∨ (97 ≤ c ∧ c ≤ 122) ∨ (48 ≤ c ∧ c ≤ 57).
Proof.
  unfold is_alnum, is_upper, is_lower, is_digit.
  rewrite !orb_true_iff, !andb_true_iff, !N.leb_le. tauto.
Qed.

Lemma alnum_ascii (c : N) : is_alnum c = true → is_ascii c = true.
Proof. intros H%alnum_bounds. apply N.ltb_lt. lia. Qed.

Lemma alnum_not_space (c : N) : is_alnum c = true → is_space c = false.
Proof.
  intros H%alnum_bounds. unfold is_space.
  apply orb_false_iff; split; apply andb_false_iff;
    rewrite !N.leb_gt; lia.
Qed.

Lemma alnum_keep (c : N) : is_alnum c = true → filename_ascii_keep c = true.
Proof.
  unfold is_alnum, filename_ascii_keep. intros ->. done.
Qed.

Lemma alnum_not_sep (c : N) : is_alnum c = true → (c =? os.sep) = false.
Proof. intros H%alnum_bounds. apply N.eqb_neq. unfold os.sep. lia. Qed.

Lemma alnum_not_stripped (c : N) : is_alnum c = true → c ∉ u "._".
Proof.
  intros H%alnum_bounds Hin. vm_compute in Hin.
  apply list_elem_of_In in Hin. simpl in Hin. lia.
Qed.

Lemma keep_not_sep (c : N) : filename_ascii_keep c = true → c ≠ os.sep.
Proof.
  unfold filename_ascii_keep, is_upper, is_lower, is_digit, os.sep.
  rewrite !orb_true_iff, !andb_true_iff, !N.leb_le, !N.eqb_eq.
  intros H ->. lia.
Qed.

Lemma digit_bounds (n : N) : 48 ≤ digit n ∧ digit n ≤ 57.
Proof.
  unfold digit. assert (n mod 10 < 10) as H by (by apply N.mod_lt).
  revert H. generalize (n mod 10). intros m Hm. lia.
Qed.

Lemma digit_alnum (n : N) : is_alnum (digit n) = true.
Proof.
  pose proof (digit_bounds n) as [H1 H2].
  unfold is_alnum, is_digit. rewrite !orb_true_iff, !andb_true_iff, !N.leb_le.
  right. done.
Qed.

(** ** The string operations *)

Lemma elem_of_rev (c : N) (s : pystr) : c ∈ rev s ↔ c ∈ s.
Proof. rewrite !list_elem_of_In. symmetry. apply in_rev. Qed.

Lemma str_lstrip_suffix (chars s : pystr) : ∃ p, s = p ++ str_lstrip chars s.
Proof.
  induction s as [|c s [p IH]]; simpl; [by exists []|].
  case_bool_decide; [|by exists []].
  exists (c :: p). simpl. by f_equal.
Qed.

Lemma str_strip_infix (chars s : pystr) :
  ∃ p q, s = p ++ str_strip chars s ++ q.
Proof.
  unfold str_strip, str_rstrip.
  destruct (str_lstrip_suffix chars s) as [p Hp].
  destruct (str_lstrip_suffix chars (rev (str_lstrip chars s))) as [q Hq].
  exists p, (rev q). rewrite <- rev_app_distr, <- Hq, rev_involutive. done.
Qed.

Lemma str_strip_elem (chars s : pystr) (c : N) : c ∈ str_strip chars s → c ∈ s.
Proof.
  destruct (str_strip_infix chars s) as (p & q & Hs). intros Hc.
  rewrite Hs, !elem_of_app. auto.
Qed.

Lemma str_lstrip_keeps (chars y t : pystr) (c : N) :
  c ∉ chars → ∃ y', str_lstrip chars (y ++ c :: t) = y' ++ c :: t.
Proof.
  intros Hc. induction y as [|a y IH]; simpl.
  - rewrite bool_decide_eq_false_2 by done. by exists [].
  - case_bool_decide; [done|]. by exists (a :: y).
Qed.

Lemma str_rstrip_keeps (chars y t : pystr) :
  Forall (λ c, c ∉ chars) t → t ≠ [] → str_rstrip chars (y ++ t) = y ++ t.
Proof.
  intros Ht Hne. unfold str_rstrip. rewrite rev_app_distr.
  destruct (rev t) as [|c r] eqn:E.
  - apply (f_equal (@rev N)) in E. rewrite rev_involutive in E. done.
  - assert (c ∉ chars) as Hc.
    { eapply (proj1 (Forall_forall _ _) Ht), elem_of_rev.
      rewrite E. apply list_elem_of_here. }
    simpl. rewrite bool_decide_eq_false_2 by done.
    change (c :: r ++ rev y) with ((c :: r) ++ rev y).
    by rewrite <- E, <- rev_app_distr, rev_involutive.
Qed.

(** [strip] leaves a tail that has none of the stripped characters. *)
Lemma str_strip_tail (chars y t : pystr) :
  Forall (λ c, c ∉ chars) t → t ≠ [] →
  ∃ y', str_strip chars (y ++ t) = y' ++ t.
Proof.
  intros Ht Hne. unfold str_strip. destruct t as [|c t]; [done|].
  destruct (str_lstrip_keeps chars y t c) as [y' ->].
  - by apply Forall_cons in Ht as [? _].
  - exists y'. by apply str_rstrip_keeps.
Qed.

Lemma startswith_spec (s p : pystr) :
  str_startswith s p = true ↔ ∃ r, s = p ++ r.
Proof.
  revert s. induction p as [|a p IH]; intros s; simpl.
  - split; [by exists s|done].
  - destruct s as [|b s]; simpl.
    + split; [done|]. by intros [r Hr].
    + rewrite andb_true_iff, N.eqb_eq, IH. split.
      * intros [-> [r ->]]. by exists r.
      * intros [r Hr]. injection Hr as -> ->. split; [done|by exists r].
Qed.

Lemma endswith_spec (s p : pystr) :
  str_endswith s p = true ↔ ∃ r, s = r ++ p.
Proof.
  unfold str_endswith. rewrite startswith_spec. split.
  - intros [r Hr]. exists (rev r).
    rewrite <- (rev_involutive s), Hr, rev_app_distr, rev_involutive. done.
  - intros [r ->]. exists (rev r). by rewrite rev_app_distr.
Qed.

Lemma break_at_spec (sep : N) (s : pystr) :
  match break_at sep s with
  | (a, Some b) => s = a ++ sep :: b ∧ sep ∉ a
  | (a, None) => s = a ∧ sep ∉ s
  end.
Proof.
  induction s as [|c s IH]; simpl.
  - split; [done|]. apply not_elem_of_nil.
  - destruct (c =? sep) eqn:E.
    + apply N.eqb_eq in E as ->. split; [done|]. apply not_elem_of_nil.
    + apply N.eqb_neq in E.
      destruct (break_at sep s) as [a [b|]]; destruct IH as [-> Hn].
      * split; [done|]. rewrite not_elem_of_cons. auto.
      * split; [done|]. rewrite not_elem_of_cons. auto.
Qed.

Lemma str_contains_spec (c : N) (s : pystr) : str_contains c s = true ↔ c ∈ s.
Proof.
  unfold str_contains. rewrite existsb_exists. split.
  - intros (x & Hx & ->%N.eqb_eq). by apply list_elem_of_In.
  - intros H. exists c. split; [by apply list_elem_of_In|apply N.eqb_refl].
Qed.

(** A string is cut in one way at its last separator. *)
Lemma last_cut_unique (sep : N) (stem ext stem' ext' : pystr) :
  sep ∉ ext → sep ∉ ext' →
  stem ++ sep :: ext = stem' ++ sep :: ext' → stem = stem' ∧ ext = ext'.
Proof.
  intros Hext Hext'. revert stem'.
  induction stem as [|x stem IH]; intros [|y stem'] H; simpl in H.
  - by injection H as ->.
  - injection H as -> H. exfalso. apply Hext. rewrite H, elem_of_app, elem_of_cons. auto.
  - injection H as -> H. exfalso. apply Hext'. rewrite <- H, elem_of_app, elem_of_cons. auto.
  - injection H as -> H. destruct (IH _ H) as [-> ->]. done.
Qed.

(** [s.rsplit(sep, 1)] cuts at the last separator. *)
Lemma str_rsplit1_spec (sep : N) (stem ext : pystr) :
  sep ∉ ext → str_rsplit1 sep (stem ++ sep :: ext) = [stem; ext].
Proof.
  intros Hext. unfold str_rsplit1.
  pose proof (break_at_spec sep (rev (stem ++ sep :: ext))) as H.
  destruct (break_at sep (rev (stem ++ sep :: ext))) as [a [b|]].
  - destruct H as [H Ha].
    apply (f_equal (@rev N)) in H.
    rewrite rev_involutive, rev_app_distr in H. simpl in H.
    rewrite <- app_assoc in H. simpl in H.
    apply last_cut_unique in H as [-> ->]; [done..|].
    by rewrite elem_of_rev.
  - destruct H as [_ H]. exfalso. apply H.
    rewrite elem_of_rev, elem_of_app, elem_of_cons. auto.
Qed.

(** Without a separator [s.rsplit(sep, 1)] is [[s]]. *)
Lemma str_rsplit1_none (sep : N) (s : pystr) :
  sep ∉ s → str_rsplit1 sep s = [s].
Proof.
  intros Hs. unfold str_rsplit1.
  pose proof (break_at_spec sep (rev s)) as H.
  destruct (break_at sep (rev s)) as [a [b|]]; [|done].
  destruct H as [H _]. exfalso. apply Hs.
  rewrite <- elem_of_rev, H, elem_of_app, elem_of_cons. auto.
Qed.

(** A string with a separator has a last one. *)
Lemma last_cut_exists (sep : N) (s : pystr) :
  sep ∈ s → ∃ stem ext, s = stem ++ sep :: ext ∧ sep ∉ ext.
Proof.
  intros Hs.
  pose proof (break_at_spec sep (rev s)) as H.
  destruct (break_at sep (rev s)) as [a [b|]].
  - destruct H as [H Ha]. exists (rev b), (rev a).
    split; [|by rewrite elem_of_rev].
    rewrite <- (rev_involutive s), H, rev_app_distr. simpl.
    by rewrite <- app_assoc.
  - destruct H as [_ H]. by rewrite elem_of_rev in H.
Qed.

(** ** The sanitizer keeps a tail of letters and digits *)

Lemma filter_all (P : N → bool) (t : pystr) :
  Forall (λ c, P c = true) t → List.filter P t = t.
Proof.
  induction 1 as [|c t Hc _ IH]; simpl; [done|]. by rewrite Hc, IH.
Qed.

Lemma str_replace_none (old new : N) (t : pystr) :
  Forall (λ c, (c =? old) = false) t → str_replace old new t = t.
Proof.
  unfold str_replace. induction 1 as [|c t Hc _ IH]; simpl; [done|].
  by rewrite Hc, IH.
Qed.

Lemma split_from_word (word t : pystr) :
  Forall (λ c, is_space c = false) t → word ++ t ≠ [] →
  split_from word t = [word ++ t].
Proof.
  intros Ht. revert word. induction Ht as [|c t Hc _ IH]; intros word Hne.
  - rewrite app_nil_r in *. simpl. by destruct word.
  - simpl. rewrite Hc, IH, <- app_assoc; [done|].
    by destruct word.
Qed.

Lemma split_from_tail (word s t : pystr) :
  Forall (λ c, is_space c = false) t → t ≠ [] →
  ∃ init w, split_from word (s ++ t) = init ++ [w ++ t].
Proof.
  intros Ht Hne. revert word. induction s as [|c s IH]; intros word.
  - exists [], word. simpl. apply split_from_word; [done|].
    destruct t; [done|]. by destruct word.
  - simpl. destruct (is_space c).
    + destruct (IH []) as (init & w & ->).
      destruct word; [by exists init, w|]. by exists ((n :: word) :: init), w.
    + apply IH.
Qed.

Lemma str_join_tail (sep : pystr) (init : list pystr) (w t : pystr) :
  ∃ y, str_join sep (init ++ [w ++ t]) = y ++ t.
Proof.
  induction init as [|a init [y IH]]; simpl.
  - by exists w.
  - destruct (init ++ [w ++ t]) eqn:E; [by destruct init|].
    rewrite IH. exists (a ++ sep ++ y). by rewrite <- !app_assoc.
Qed.

Lemma normalize_NFKD_snoc (s : pystr) (c : N) :
  is_ascii c = true → normalize_NFKD (s ++ [c]) = normalize_NFKD s ++ [c].
Proof.
  intros Hc. unfold normalize_NFKD.
  rewrite forallb_app. simpl. rewrite Hc, andb_true_r.
  destruct (forallb is_ascii s); [done|].
  apply unicode_nfkd_snoc. by apply N.ltb_lt.
Qed.

Lemma normalize_NFKD_tail (s t : pystr) :
  Forall (λ c, is_ascii c = true) t →
  normalize_NFKD (s ++ t) = normalize_NFKD s ++ t.
Proof.
  intros Ht. revert s. induction Ht as [|c t Hc _ IH]; intros s.
  - by rewrite !app_nil_r.
  - change (c :: t) with ([c] ++ t).
    rewrite !app_assoc, IH, normalize_NFKD_snoc; done.
Qed.

(** On POSIX the branch for Windows device names is dead: the sanitizer is
    the chain of its string operations. *)
Lemma secure_filename_posix (s : pystr) :
  secure_filename s =
  str_strip (u "._")
    (List.filter filename_ascii_keep
       (str_join (u "_")
          (str_split
             (str_replace os.sep 32 (encode_ascii_ignore (normalize_NFKD s)))))).
Proof. reflexivity. Qed.

(** The sanitized name ends as the client's name does, over letters and
    digits. *)
Lemma secure_filename_tail (s t : pystr) :
  Forall (λ c, is_alnum c = true) t → t ≠ [] →
  ∃ y, secure_filename (s ++ t) = y ++ t.
Proof.
  intros Ht Hne. rewrite secure_filename_posix.
  rewrite normalize_NFKD_tail
    by (eapply Forall_impl; [done|apply alnum_ascii]).
  unfold encode_ascii_ignore. rewrite List.filter_app.
  rewrite (filter_all is_ascii t)
    by (eapply Forall_impl; [done|apply alnum_ascii]).
  unfold str_replace at 1. rewrite map_app. fold (str_replace os.sep 32 t).
  rewrite (str_replace_none _ _ t)
    by (eapply Forall_impl; [done|apply alnum_not_sep]).
  match goal with |- context [str_split (?a ++ t)] => set (s1 := a) end.
  destruct (split_from_tail [] s1 t) as (init & w & Hsplit);
    [eapply Forall_impl; [done|apply alnum_not_space]|done|].
  unfold str_split. rewrite Hsplit.
  destruct (str_join_tail (u "_") init w t) as [y1 ->].
  rewrite List.filter_app.
  rewrite (filter_all filename_ascii_keep t)
    by (eapply Forall_impl; [done|apply alnum_keep]).
  apply str_strip_tail; [|done].
  eapply Forall_impl; [done|apply alnum_not_stripped].
Qed.

(** Every code point of a sanitized name is a letter, a digit, "_", "." or
    "-". *)
Lemma secure_filename_safe (s : pystr) (c : N) :
  c ∈ secure_filename s → filename_ascii_keep c = true.
Proof.
  rewrite secure_filename_posix. intros Hc%str_strip_elem.
  apply list_elem_of_In, filter_In in Hc. tauto.
Qed.

(** ** The allow-list check *)

Lemma ascii_lower_letter (c : N) :
  is_lower (ascii_lower c) = true → is_alnum c = true.
Proof.
  unfold ascii_lower, is_alnum. destruct (is_upper c); [done|].
  intros ->. by rewrite orb_true_r.
Qed.

Lemma map_lower_letters (ext l : pystr) :
  map ascii_lower ext = l → Forall (λ c, is_lower c = true) l →
  Forall (λ c, is_alnum c = true) ext.
Proof.
  intros <- H. apply Forall_fmap in H.
  eapply Forall_impl; [done|]. intros c. apply ascii_lower_letter.
Qed.

Lemma allowed_extension_letters (l : pystr) :
  l ∈ ALLOWED_EXTENSIONS → l ≠ [] ∧ Forall (λ c, is_lower c = true) l.
Proof.
  unfold ALLOWED_EXTENSIONS. rewrite !elem_of_cons, elem_of_nil.
  intros [->|[->|[]]]; (split; [done|]); vm_compute; repeat constructor.
Qed.

(** An extension on the allow-list is written in ASCII: the lower case of a
    code point outside ASCII leaves a mark that neither "zip" nor "csv" has. *)
Lemma allowed_extension_ascii (ext : pystr) :
  str_lower ext ∈ ALLOWED_EXTENSIONS → forallb is_ascii ext = true.
Proof.
  unfold str_lower. destruct (forallb is_ascii ext) eqn:E; [done|].
  intros Hin. exfalso.
  assert (∃ c, c ∈ ext ∧ 128 ≤ c) as (c & Hc & Hge).
  { clear Hin. induction ext as [|a ext IH]; [done|]. simpl in E.
    apply andb_false_iff in E as [E|E].
    - exists a. split; [apply list_elem_of_here|].
      unfold is_ascii in E. by apply N.ltb_ge in E.
    - destruct (IH E) as (c & Hc & Hge). exists c.
      split; [by apply list_elem_of_further|done]. }
  destruct (unicode_lower_marks ext c Hc Hge) as (d & Hd & Hmark).
  destruct (allowed_extension_letters _ Hin) as [_ Hall].
  pose proof (proj1 (Forall_forall _ _) Hall d Hd) as Hl.
  unfold is_lower in Hl. apply andb_true_iff in Hl as [H1 H2].
  apply N.leb_le in H1, H2.
  destruct Hmark as [Hm| ->]; [lia|].
  revert Hin Hd. generalize (unicode_lower ext). intros l Hin Hd.
  unfold ALLOWED_EXTENSIONS in Hin.
  rewrite !elem_of_cons, elem_of_nil in Hin.
  destruct Hin as [->|[->|[]]]; vm_compute in Hd;
    apply list_elem_of_In in Hd; simpl in Hd; lia.
Qed.

(** What an allowed extension is: a spelling of "zip" or "csv" in upper and
    lower case letters. *)
Lemma allowed_extension_spelling (ext : pystr) :
  str_lower ext ∈ ALLOWED_EXTENSIONS ↔
  map ascii_lower ext ∈ ALLOWED_EXTENSIONS.
Proof.
  split.
  - intros H. pose proof (allowed_extension_ascii ext H) as Ha.
    unfold str_lower in H. by rewrite Ha in H.
  - intros H. unfold str_lower.
    destruct (allowed_extension_letters _ H) as [_ Hl].
    pose proof (map_lower_letters ext _ eq_refl Hl) as Hal.
    assert (forallb is_ascii ext = true) as ->; [|done].
    apply forallb_forall. intros c Hc%list_elem_of_In.
    apply alnum_ascii. by apply (proj1 (Forall_forall _ _) Hal).
Qed.

Lemma allowed_extension_alnum (ext : pystr) :
  str_lower ext ∈ ALLOWED_EXTENSIONS →
  ext ≠ [] ∧ Forall (λ c, is_alnum c = true) ext.
Proof.
  intros H%allowed_extension_spelling.
  destruct (allowed_extension_letters _ H) as [Hne Hl]. split.
  - intros ->. done.
  - by eapply map_lower_letters.
Qed.

(** [allowed_file] in the words of its contract: the name has a dot, and
    what follows the last dot is, in lower case, on the allow-list. *)
Lemma allowed_file_spec (name : pystr) :
  allowed_file name = true ↔
  ∃ stem ext, name = stem ++ 46 :: ext ∧ (46 ∉ ext)
              ∧ str_lower ext ∈ ALLOWED_EXTENSIONS.
Proof.
  unfold allowed_file. rewrite andb_true_iff, str_contains_spec. split.
  - intros [Hdot H].
    destruct (last_cut_exists 46 name Hdot) as (stem & ext & -> & Hext).
    rewrite str_rsplit1_spec in H by done. simpl in H.
    apply bool_decide_eq_true in H. by exists stem, ext.
  - intros (stem & ext & -> & Hext & H). split; [rewrite elem_of_app, elem_of_cons; auto|].
    rewrite str_rsplit1_spec by done. simpl. by apply bool_decide_eq_true.
Qed.

(** The sanitized form of an allowed name ends in the client's extension,
    letter for letter. *)
Lemma allowed_secure_tail (stem ext : pystr) :
  46 ∉ ext → str_lower ext ∈ ALLOWED_EXTENSIONS →
  ∃ y, secure_filename (stem ++ 46 :: ext) = y ++ ext.
Proof.
  intros _ [Hne Hal]%allowed_extension_alnum.
  change (stem ++ 46 :: ext) with (stem ++ [46] ++ ext).
  rewrite app_assoc. by apply secure_filename_tail.
Qed.

(** ** Paths *)

Lemma startswith_sep_digit (n : N) (r : pystr) :
  str_startswith (digit n :: r) [os.sep] = false.
Proof.
  cbn [str_startswith]. apply andb_false_iff. left. apply N.eqb_neq.
  pose proof (digit_bounds n). unfold os.sep. lia.
Qed.

Lemma endswith_sep_digit (n : N) (r : pystr) :
  str_endswith (r ++ [digit n]) [os.sep] = false.
Proof.
  unfold str_endswith. rewrite rev_app_distr. apply startswith_sep_digit.
Qed.

Lemma strftime_Ymd_ends (t : datetime) :
  ∃ a r b, strftime_Ymd t = digit a :: r ++ [digit b].
Proof.
  exists (year t / 1000),
    ([digit (year t / 100); digit (year t / 10); digit (year t); 45;
      digit (month t / 10); digit (month t); 45; digit (day t / 10)]),
    (day t).
  reflexivity.
Qed.

Lemma strftime_HMS_digits (t : datetime) :
  Forall (λ c, is_alnum c = true) (strftime_HMS t).
Proof. repeat constructor; apply digit_alnum. Qed.

Lemma strftime_HMS_starts (t : datetime) :
  ∃ a r, strftime_HMS t = digit a :: r.
Proof. by eexists _, _. Qed.

(** The day folder is [UPLOAD_FOLDER/YYYY-MM-DD]. *)
Lemma join_daily_folder (t : datetime) :
  os.path_join UPLOAD_FOLDER (strftime_Ymd t)
  = UPLOAD_FOLDER ++ [os.sep] ++ strftime_Ymd t.
Proof.
  destruct (strftime_Ymd_ends t) as (a & r & b & ->).
  unfold os.path_join. by rewrite startswith_sep_digit.
Qed.

(** A leaf that starts with the time stamp is joined below the day folder. *)
Lemma join_leaf (t t' : datetime) (rest : pystr) :
  os.path_join (UPLOAD_FOLDER ++ [os.sep] ++ strftime_Ymd t)
               (strftime_HMS t' ++ rest)
  = (UPLOAD_FOLDER ++ [os.sep] ++ strftime_Ymd t)
      ++ [os.sep] ++ strftime_HMS t' ++ rest.
Proof.
  destruct (strftime_Ymd_ends t) as (a & r & b & ->).
  destruct (strftime_HMS_starts t') as (c & r' & ->).
  unfold os.path_join. rewrite <- (app_comm_cons r' rest).
  rewrite startswith_sep_digit.
  replace (UPLOAD_FOLDER ++ [os.sep] ++ digit a :: r ++ [digit b])
    with ((UPLOAD_FOLDER ++ [os.sep] ++ digit a :: r) ++ [digit b])
    by (by rewrite <- !app_assoc).
  rewrite endswith_sep_digit.
  unfold pystr_eqb. rewrite bool_decide_eq_false_2; [done|].
  by destruct UPLOAD_FOLDER.
Qed.

(** ** The upload handler *)

Lemma check_auth_true (request : Request) :
  authenticated request → check_auth env request = true.
Proof. intros H. by apply bool_decide_eq_true. Qed.

Lemma check_auth_false (request : Request) :
  ¬ authenticated request → check_auth env request = false.
Proof. intros H. by apply bool_decide_eq_false. Qed.

(** The handler on a token that is not the secret. *)
Lemma reject_unauthorized (request : Request) (w : World) :
  ¬ authenticated request →
  upload_file env request w = (Done (jsonify "error" "Unauthorized" 401), w).
Proof.
  intros H. unfold upload_file. by rewrite check_auth_false.
Qed.

(** The handler on a body without a file part, or with a file part without
    a name. *)
Lemma reject_missing_file (request : Request) (form : FormData) (w : World) :
  authenticated request →
  body request = Complete form →
  (file_part form = None
   ∨ ∃ file, file_part form = Some file ∧ filename file = []) →
  upload_file env request w =
    (Done (jsonify "error"
             (match file_part form with
              | None => "No file part"
              | Some _ => "No selected file"
              end) 400), w).
Proof.
  intros Hauth Hbody Hmiss. unfold upload_file, request_files.
  rewrite check_auth_true, Hbody by done.
  unfold mbind, M_bind, bind, mret, M_ret, ret.
  destruct Hmiss as [->|(file & -> & Hname)]; [done|]. by rewrite Hname.
Qed.

(** C1: a request to POST /api/v1/upload whose X-ET-AUTH-TOKEN header is not
    the configured secret (absent header included) is answered 401 with the
    payload [{"error": "Unauthorized"}], whatever its body is, and the world
    is as before: no event is logged (nothing of the file system is looked
    at), no directory is made and no file is written. *)
Theorem upload_unauthorized (request : Request) (w : World) :
  auth_token request ≠ Some (API_KEY (ET_API_KEY env)) →
  upload_file env request w = (Done (jsonify "error" "Unauthorized" 401), w).
Proof.
  intros Htoken. unfold upload_file, check_auth.
  rewrite bool_decide_eq_false_2 by done. reflexivity.
Qed.

(** C7: an authenticated request whose body has no file part, or whose file
    part has the empty file name, is answered 400 with an error that names
    which of the two is missing ("No file part", "No selected file"); the
    world is as before, so no file is written. *)
Theorem upload_missing_file (request : Request) (form : FormData) (w : World) :
  authenticated request →
  body request = Complete form →
  (file_part form = None
   ∨ ∃ file, file_part form = Some file ∧ filename file = []) →
  upload_file env request w =
    (Done (jsonify "error"
             (match file_part form with
              | None => "No file part"
              | Some _ => "No selected file"
              end) 400), w).
Proof.
  intros Hauth Hbody Hmiss. unfold upload_file, request_files.
  rewrite check_auth_true, Hbody by done.
  unfold mbind, M_bind, bind, mret, M_ret, ret.
  destruct Hmiss as [Hnone|(file & Hfile & Hname)].
  - by rewrite Hnone.
  - rewrite Hfile. unfold pystr_eqb. by rewrite bool_decide_eq_true_2.
Qed.

(** The handler on a name that fails the allow-list check. *)
Lemma upload_not_allowed (request : Request) (form : FormData)
    (file : FileStorage) (w : World) :
  authenticated request →
  body request = Complete form →
  file_part form = Some file →
  filename file ≠ [] →
  allowed_file (filename file) = false →
  upload_file env request w =
    (Done (jsonify "error" "Invalid file type" 400), w).
Proof.
  intros Hauth Hbody Hfile Hname Hno. unfold upload_file, request_files.
  rewrite check_auth_true, Hbody by done.
  unfold mbind, M_bind, bind, mret, M_ret, ret. rewrite Hfile.
  unfold pystr_eqb. rewrite bool_decide_eq_false_2 by done.
  by rewrite Hno, andb_false_r.
Qed.

(** C2: for an authenticated request with a file part of non-empty name,
    the handler goes past the type check (its answer is not the 400
    "Invalid file type") only if the name as the client sent it has a dot
    and what follows its last dot is, in lower case, "zip" or "csv"; the test
    reads the client's name, not the sanitized one.  A name that fails it is
    answered 400 "Invalid file type" with the world as before: no file is
    written. *)
Theorem upload_type_check (request : Request) (form : FormData)
    (file : FileStorage) (w : World) :
  authenticated request →
  body request = Complete form →
  file_part form = Some file →
  filename file ≠ [] →
  (upload_file env request w
     ≠ (Done (jsonify "error" "Invalid file type" 400), w) →
   ∃ stem ext, filename file = stem ++ [46] ++ ext ∧ (46 ∉ ext)
               ∧ str_lower ext ∈ ALLOWED_EXTENSIONS)
  ∧ ((¬ ∃ stem ext, filename file = stem ++ [46] ++ ext ∧ (46 ∉ ext)
                    ∧ str_lower ext ∈ ALLOWED_EXTENSIONS) →
     upload_file env request w
       = (Done (jsonify "error" "Invalid file type" 400), w)).
Proof.
  intros Hauth Hbody Hfile Hname.
  destruct (allowed_file (filename file)) eqn:E.
  - apply allowed_file_spec in E. split; [done|]. by intros [].
  - pose proof (upload_not_allowed _ _ _ w Hauth Hbody Hfile Hname E) as Hrun.
    split; [by intros []|done].
Qed.

Lemma upload_aborted (request : Request) (e : exn) (w : World) :
  authenticated request →
  body request = Aborted e →
  upload_file env request w = (Raised e, w).
Proof.
  intros Hauth Hbody. unfold upload_file, request_files.
  by rewrite check_auth_true, Hbody.
Qed.

(** A run ends without a 201 and leaves the world as it was, or it is the
    run of an accepted upload. *)
Lemma upload_cases (request : Request) (w : World) :
  (∃ o, upload_file env request w = (o, w)
        ∧ ∀ resp, o = Done resp → status_code resp ≠ 201)
  ∨ (∃ form file,
       authenticated request ∧ body request = Complete form
       ∧ file_part form = Some file ∧ allowed_file (filename file) = true).
Proof.
  destruct (decide (auth_token request = Some (API_KEY (ET_API_KEY env))))
    as [Hauth|Hauth].
  2: { left. eexists. split; [by apply reject_unauthorized|].
       by intros resp [= <-]. }
  destruct (body request) as [form|e] eqn:Hbody.
  2: { left. eexists. split; [by apply upload_aborted|]. by intros resp. }
  destruct (file_part form) as [file|] eqn:Hfile.
  2: { left. eexists. split; [apply (reject_missing_file _ form); auto|].
       by intros resp [= <-]. }
  destruct (decide (filename file = [])) as [Hname|Hname].
  { left. eexists. split; [apply (reject_missing_file _ form); eauto|].
    by intros resp [= <-]. }
  destruct (allowed_file (filename file)) eqn:Hok.
  - right. by exists form, file.
  - left. eexists. split; [by eapply upload_not_allowed|].
    by intros resp [= <-].
Qed.

(** Only an accepted upload is answered 201. *)
Lemma upload_success_accepted (request : Request) (w w' : World)
    (resp : Response) :
  upload_file env request w = (Done resp, w') →
  status_code resp = 201 →
  ∃ form file,
    authenticated request ∧ body request = Complete form
    ∧ file_part form = Some file ∧ allowed_file (filename file) = true.
Proof.
  intros Hrun Hcode.
  destruct (upload_cases request w) as [(o & Hrun' & Hno)|Hacc]; [|done].
  rewrite Hrun in Hrun'. injection Hrun' as <- _.
  by destruct (Hno resp eq_refl).
Qed.

Lemma join_save_path (file : FileStorage) (w : World) :
  os.path_join (daily_folder w)
    (timestamp w ++ u "_" ++ secure_filename (filename file))
  = save_path file w.
Proof. apply join_leaf. Qed.

Lemma join_desc_path (w : World) :
  os.path_join (daily_folder w) (timestamp w ++ u "_desc.txt") = desc_path w.
Proof. apply join_leaf. Qed.

(** *** The runs of an accepted upload *)

Lemma later_log (w : World) (f : filesystem) (n : nat) (events : list event) :
  log (later w f n events) = log w ++ events.
Proof. reflexivity. Qed.

Lemma later_fs (w : World) (f : filesystem) (n : nat) (events : list event) :
  fs (later w f n events) = f.
Proof. reflexivity. Qed.

Ltac case_answer t :=
  let E := fresh "E" in
  destruct t eqn:E;
  cbn [negb fs ticks log emit set_fs add_dirs put_file dirs files].

Ltac case_write t :=
  let E := fresh "E" in
  destruct t as [|[|]] eqn:E;
  cbn [negb fs ticks log emit set_fs add_dirs put_file dirs files].

(** Close a run with the constructor [c] of [stored]: its premises come
    from the answers met on the way, its world is the one of the goal. *)
Ltac ends_as c :=
  eapply (eq_ind _ (stored _ _ _));
  [ eapply c;
    unfold folder_step, zip_verdict;
    repeat match goal with
           | E : _ = _ |- _ => rewrite E
           end;
    first [ reflexivity | eassumption | discriminate ]
  | unfold later, left_behind, zip_events, zip_verdict, emit, set_fs, put_file;
    repeat match goal with
           | E : _ = _ |- _ => rewrite E
           end;
    cbn [fs ticks log dirs files plus zip_error];
    rewrite <- ?app_assoc; reflexivity ].

(** Take the equation [(o, w') = (o0, w0)] of a run apart. *)
Ltac split_run H :=
  let Ho := fresh "Ho" in
  let Hw := fresh "Hw" in
  pose proof (f_equal fst H) as Ho;
  pose proof (f_equal snd H) as Hw;
  cbn [fst snd] in Ho, Hw; clear H;
  try discriminate Ho;
  try (injection Ho as Ho);
  subst.

Lemma upload_accepted (request : Request) (form : FormData)
    (file : FileStorage) (w : World) :
  authenticated request →
  body request = Complete form →
  file_part form = Some file →
  allowed_file (filename file) = true →
  stored file (default [] (description_field form)) w
    (upload_file env request w).
Proof.
  intros Hauth Hbody Hfile Hok.
  assert (filename file ≠ []) as Hname.
  { intros E. by rewrite E in Hok. }
  unfold upload_file, request_files.
  rewrite check_auth_true, Hbody by done.
  unfold mbind, M_bind, bind, mret, M_ret, ret. rewrite Hfile.
  unfold FileStorage_bool, pystr_eqb.
  rewrite bool_decide_eq_false_2 by done. rewrite Hok.
  cbn [negb andb].
  unfold datetime_now, os_path_exists, os_makedirs, file_save, open_write,
    write_at, ZipFile_testzip, try_except, print.
  cbn [fs ticks log emit set_fs].
  rewrite !join_daily_folder. fold (daily_folder w).
  change (bool_decide (daily_folder w ∈ dirs (fs w))
          || bool_decide (is_Some (files (fs w) !! daily_folder w)))
    with (folder_found w).
  generalize (default [] (description_field form)). intros description.
  clear Hauth Hbody Hfile Hok Hname.
  case_answer (folder_found w);
    [|case_answer (io env (OpMakedirs (daily_folder w)));
      [|ends_as stored_makedirs_raises]].
  all: fold (timestamp w); rewrite !join_save_path, ?join_desc_path.
  all: case_write (io env (OpSave (save_path file w)));
    [|ends_as stored_save_raises..].
  all: case_answer (str_endswith (secure_filename (filename file)) (u ".zip"));
    rewrite ?lookup_insert_eq.
  all: try (case_answer (zip_probe env (save_path file w)
                           (Some (Bytes (stream file))));
            [ends_as stored_zip_rejected..|]).
  all: destruct (decide (description = [])) as [Hd|Hd];
    [rewrite (bool_decide_eq_true_2 _ Hd); cbn [negb];
     case_answer (stdout env (u "[SUCCESS] Report received: "
                                ++ save_path file w));
     [ends_as stored_print_raises_plain|ends_as stored_plain]
    |rewrite (bool_decide_eq_false_2 _ Hd); cbn [negb]].
  all: case_write (io env (OpWriteText (desc_path w)));
    [case_answer (stdout env (u "[SUCCESS] Report received: "
                                ++ save_path file w));
     [ends_as stored_print_raises_with_description
     |ends_as stored_with_description]
    |ends_as stored_desc_raises..].
Qed.

(** The report and the description never share a path: the sanitized name
    ends in the client's extension, and "desc.txt" does not. *)
Lemma save_path_not_desc (file : FileStorage) (w : World) :
  allowed_file (filename file) = true → save_path file w ≠ desc_path w.
Proof.
  intros (stem & ext & Hname & Hdot & Hext)%allowed_file_spec E.
  unfold save_path, desc_path in E.
  change (u "_desc.txt") with (u "_" ++ u "desc.txt") in E.
  do 4 apply app_inv_head in E.
  destruct (allowed_secure_tail stem ext Hdot Hext) as [y Hy].
  rewrite Hname, Hy in E.
  apply allowed_extension_spelling in Hext.
  apply (f_equal (map ascii_lower)) in E. rewrite map_app in E.
  assert (str_endswith (map ascii_lower (u "desc.txt")) (map ascii_lower ext)
          = true) as Hends.
  { apply endswith_spec. by exists (map ascii_lower y). }
  revert Hext Hends. generalize (map ascii_lower ext). intros l Hl.
  unfold ALLOWED_EXTENSIONS in Hl. rewrite !elem_of_cons, elem_of_nil in Hl.
  destruct Hl as [->|[->|[]]]; vm_compute; discriminate.
Qed.

Lemma folder_step_events (w : World) (f0 : filesystem) (ev0 : list event) :
  folder_step w = Some (f0, ev0) →
  files f0 = files (fs w) ∧ saved_reports ev0 = []
  ∧ written_descriptions ev0 = [].
Proof.
  unfold folder_step. destruct (folder_found w).
  - intros [= <- <-]. done.
  - destruct (io env (OpMakedirs (daily_folder w))); [|done].
    intros [= <- <-]. done.
Qed.

Lemma zip_events_quiet (file : FileStorage) (w : World) :
  saved_reports (zip_events file w) = []
  ∧ written_descriptions (zip_events file w) = [].
Proof. unfold zip_events. by destruct (str_endswith _ _). Qed.

(** C3: when an authenticated upload of an allowed file is answered 201, the
    run saved exactly one report, at
    [{root}/{YYYY-MM-DD}/{HHMMSS}_{sanitized-filename}] with the bytes of the
    uploaded body; the file at that path holds these bytes afterwards, and no
    path but this one and the one of the description has changed.  The date
    is the one of the handler's first reading of the clock and the time the
    one of its second reading: the time of receipt, for a request that is
    served within one second. *)
Theorem upload_stores_report (request : Request) (form : FormData)
    (file : FileStorage) (w w' : World) (resp : Response) :
  authenticated request →
  body request = Complete form →
  file_part form = Some file →
  allowed_file (filename file) = true →
  upload_file env request w = (Done resp, w') →
  status_code resp = 201 →
  let D := strftime_Ymd (clock env (ticks w)) in
  let T := strftime_HMS (clock env (S (ticks w))) in
  let path := UPLOAD_FOLDER ++ u "/" ++ D ++ u "/" ++ T ++ u "_"
                ++ secure_filename (filename file) in
  ∃ new,
    log w' = log w ++ new
    ∧ saved_reports new = [(path, stream file)]
    ∧ files (fs w') !! path = Some (Bytes (stream file))
    ∧ ∀ p, p ≠ path → p ≠ desc_path w → files (fs w') !! p = files (fs w) !! p.
Proof.
  intros Hauth Hbody Hfile Hok Hrun Hcode D T path.
  pose proof (upload_accepted _ _ _ w Hauth Hbody Hfile Hok) as Hst.
  rewrite Hrun in Hst.
  pose proof (save_path_not_desc file w Hok) as Hne.
  change path with (save_path file w). clear D T path.
  remember (Done resp, w') as r eqn:Hr.
  destruct Hst as [|f0 ev0 left|f0 ev0 Hf Hs Hz|f0 ev0 left
                   |f0 ev0 Hf Hs Hz Hd Hw|f0 ev0 Hf Hs Hz Hd
      |f0 ev0 e' Hf Hs Hz Hd Hw Hout|f0 ev0 e' Hf Hs Hz Hd Hout];
    split_run Hr; try (cbn in Hcode; discriminate Hcode);
    destruct (folder_step_events _ _ _ Hf) as (Hfiles & Hsaved & _);
    destruct (zip_events_quiet file w) as [Hzq _];
    rewrite later_log, later_fs;
    match goal with |- ∃ new, _ ++ ?ev = _ ∧ _ => exists ev end;
    (split; [reflexivity|]);
    unfold saved_reports in *; rewrite !omap_app, Hsaved, Hzq;
    (split; [reflexivity|]); cbn [put_file files].
  - split.
    + rewrite lookup_insert_ne by done. apply lookup_insert_eq.
    + intros p Hp Hp'. by rewrite !lookup_insert_ne, Hfiles.
  - split.
    + apply lookup_insert_eq.
    + intros p Hp Hp'. by rewrite lookup_insert_ne, Hfiles.
Qed.

Lemma zip_verdict_checked (file : FileStorage) (w : World) :
  str_endswith (secure_filename (filename file)) (u ".zip") = true →
  zip_verdict file w
  = zip_probe env (save_path file w) (Some (Bytes (stream file))).
Proof. intros H. unfold zip_verdict. by rewrite H. Qed.

Lemma zip_verdict_skipped (file : FileStorage) (w : World) :
  str_endswith (secure_filename (filename file)) (u ".zip") = false →
  zip_verdict file w = ZipIntact ∧ zip_events file w = [].
Proof. intros H. unfold zip_verdict, zip_events. by rewrite H. Qed.

(** C4: for an upload whose sanitized name ends in ".zip" and whose report
    was written, if the written file cannot be opened as an archive or its
    test names a bad member, the answer is 400 with the error "Invalid ZIP"
    or "Corrupted ZIP", and the report is still on disk with the uploaded
    bytes: a rejected upload is not deleted. *)
Theorem upload_bad_zip (request : Request) (form : FormData)
    (file : FileStorage) (w : World) :
  authenticated request →
  body request = Complete form →
  file_part form = Some file →
  allowed_file (filename file) = true →
  str_endswith (secure_filename (filename file)) (u ".zip") = true →
  report_written file w →
  zip_probe env (save_path file w) (Some (Bytes (stream file))) ≠ ZipIntact →
  ∃ msg w',
    upload_file env request w = (Done (jsonify "error" msg 400), w')
    ∧ msg = match zip_probe env (save_path file w)
                    (Some (Bytes (stream file))) with
            | ZipBadMember _ => "Corrupted ZIP"
            | _ => "Invalid ZIP"
            end
    ∧ files (fs w') !! save_path file w = Some (Bytes (stream file)).
Proof.
  intros Hauth Hbody Hfile Hok Hzip [Hfolder Hsave] Hbad.
  pose proof (upload_accepted _ _ _ w Hauth Hbody Hfile Hok) as Hst.
  rewrite <- (zip_verdict_checked file w Hzip) in *.
  destruct Hst as [Hf|f0 ev0 left Hf Hs|f0 ev0 Hf Hs Hz|f0 ev0 left Hf Hs Hz
                   |f0 ev0 Hf Hs Hz|f0 ev0 Hf Hs Hz
      |f0 ev0 e' Hf Hs Hz Hd Hw Hout|f0 ev0 e' Hf Hs Hz Hd Hout]; try congruence.
  eexists _, _. split; [reflexivity|]. split; [done|].
  rewrite later_fs. apply lookup_insert_eq.
Qed.

(** C6, as the code has it: when an upload is answered 201, the run wrote a
    description exactly when the request came with a non-empty description
    text; it wrote it once, at [{root}/{YYYY-MM-DD}/{HHMMSS}_desc.txt] in the
    day folder of the report, and afterwards the file there holds that text,
    unchanged, in UTF-8.  With an empty or absent description nothing is
    written and the path is as before. *)
Theorem upload_description (request : Request) (w w' : World)
    (resp : Response) :
  upload_file env request w = (Done resp, w') →
  status_code resp = 201 →
  ∃ form new,
    body request = Complete form
    ∧ log w' = log w ++ new
    ∧ let description := default [] (description_field form) in
      let D := strftime_Ymd (clock env (ticks w)) in
      let T := strftime_HMS (clock env (S (ticks w))) in
      let path := UPLOAD_FOLDER ++ u "/" ++ D ++ u "/" ++ T ++ u "_desc.txt" in
      (description ≠ [] →
       written_descriptions new = [(path, description)]
       ∧ files (fs w') !! path = Some (Utf8Text description))
      ∧ (description = [] →
         written_descriptions new = []
         ∧ files (fs w') !! path = files (fs w) !! path).
Proof.
  intros Hrun Hcode.
  destruct (upload_success_accepted _ _ _ _ Hrun Hcode)
    as (form & file & Hauth & Hbody & Hfile & Hok).
  exists form.
  pose proof (upload_accepted _ _ _ w Hauth Hbody Hfile Hok) as Hst.
  rewrite Hrun in Hst.
  pose proof (save_path_not_desc file w Hok) as Hne.
  change (UPLOAD_FOLDER ++ u "/" ++ strftime_Ymd (clock env (ticks w))
            ++ u "/" ++ strftime_HMS (clock env (S (ticks w)))
            ++ u "_desc.txt") with (desc_path w).
  cbv zeta.
  generalize dependent (default [] (description_field form)).
  intros description Hst.
  remember (Done resp, w') as r eqn:Hr.
  destruct Hst as [|f0 ev0 left|f0 ev0 Hf Hs Hz|f0 ev0 left
                   |f0 ev0 Hf Hs Hz Hd Hw|f0 ev0 Hf Hs Hz Hd
      |f0 ev0 e' Hf Hs Hz Hd Hw Hout|f0 ev0 e' Hf Hs Hz Hd Hout];
    split_run Hr; try (cbn in Hcode; discriminate Hcode);
    destruct (folder_step_events _ _ _ Hf) as (Hfiles & _ & Hwritten);
    destruct (zip_events_quiet file w) as [_ Hzq];
    rewrite later_log, later_fs;
    match goal with |- ∃ new, _ ∧ _ ++ ?ev = _ ∧ _ => exists ev end;
    (split; [done|]); (split; [reflexivity|]);
    unfold written_descriptions in *; rewrite !omap_app, Hwritten, Hzq;
    cbn [put_file files].
  - split; [|done]. intros _. split; [reflexivity|]. apply lookup_insert_eq.
  - split; [done|]. intros _. split; [reflexivity|].
    by rewrite lookup_insert_ne, Hfiles.
Qed.

(** C9, as the code has it: a write of the description that fails is not
    tolerated, the exception leaves the handler and there is no response;
    an exception raised while the written archive is opened or tested is
    caught and answered 400 "Invalid ZIP". *)
Theorem upload_errors (request : Request) (form : FormData)
    (file : FileStorage) (w : World) :
  authenticated request →
  body request = Complete form →
  file_part form = Some file →
  allowed_file (filename file) = true →
  report_written file w →
  (∀ left,
     zip_verdict file w = ZipIntact →
     default [] (description_field form) ≠ [] →
     io env (OpWriteText (desc_path w)) = IoError left →
     fst (upload_file env request w) = Raised OSError)
  ∧ (str_endswith (secure_filename (filename file)) (u ".zip") = true →
     zip_probe env (save_path file w) (Some (Bytes (stream file))) = ZipRaises →
     fst (upload_file env request w)
       = Done (jsonify "error" "Invalid ZIP" 400)).
Proof.
  intros Hauth Hbody Hfile Hok [Hfolder Hsave].
  pose proof (upload_accepted _ _ _ w Hauth Hbody Hfile Hok) as Hst.
  split.
  - intros left Hz Hd Hw.
    destruct Hst as [Hf|f0 ev0 left' Hf Hs|f0 ev0 Hf Hs Hz'
                     |f0 ev0 left' Hf Hs Hz'
                     |f0 ev0 Hf Hs Hz'|f0 ev0 Hf Hs Hz'
                     |f0 ev0 e' Hf Hs Hz'|f0 ev0 e' Hf Hs Hz'];
      first [congruence|reflexivity].
  - intros Hzip Hprobe.
    rewrite <- (zip_verdict_checked file w Hzip) in Hprobe.
    destruct Hst as [Hf|f0 ev0 left' Hf Hs|f0 ev0 Hf Hs Hz'
                     |f0 ev0 left' Hf Hs Hz'
                     |f0 ev0 Hf Hs Hz'|f0 ev0 Hf Hs Hz'
      |f0 ev0 e' Hf Hs Hz' Hd Hw Hout|f0 ev0 e' Hf Hs Hz' Hd Hout]; try congruence.
    cbn [fst]. by rewrite Hprobe.
Qed.

Lemma zip_spelling (ext : pystr) :
  map ascii_lower ext = u "zip" →
  List.length ext = 3%nat ∧ (46 ∉ ext) ∧ str_lower ext ∈ ALLOWED_EXTENSIONS.
Proof.
  intros H. split; [|split].
  - by rewrite <- (length_map ascii_lower), H.
  - intros Hin.
    assert (ascii_lower 46 ∈ map ascii_lower ext) as Hin'
      by (by apply (list_elem_of_fmap_2 ascii_lower)).
    clear Hin. rename Hin' into Hin.
    rewrite H in Hin. vm_compute in Hin.
    apply list_elem_of_In in Hin. simpl in Hin. lia.
  - apply allowed_extension_spelling. rewrite H. apply list_elem_of_here.
Qed.

(** The sanitized form of a name whose extension is "zip" in another
    spelling does not end in ".zip". *)
Lemma other_spelling_not_checked (stem ext : pystr) :
  map ascii_lower ext = u "zip" → ext ≠ u "zip" →
  str_endswith (secure_filename (stem ++ u "." ++ ext)) (u ".zip") = false.
Proof.
  intros Hext Hne. destruct (zip_spelling ext Hext) as (Hlen & Hdot & Hok).
  destruct (allowed_secure_tail stem ext Hdot Hok) as [y Hy].
  change (stem ++ u "." ++ ext) with (stem ++ 46 :: ext). rewrite Hy.
  apply not_true_is_false. intros [r Hr]%endswith_spec.
  change (u ".zip") with ([46] ++ u "zip") in Hr. rewrite app_assoc in Hr.
  apply app_inj_2 in Hr as [_ Hr]; done.
Qed.

Lemma folder_step_no_archive (w : World) (f0 : filesystem) (ev0 : list event) :
  folder_step w = Some (f0, ev0) → opened_archives ev0 = [].
Proof.
  unfold folder_step. destruct (folder_found w).
  - by intros [= <- <-].
  - destruct (io env (OpMakedirs (daily_folder w))); [|done].
    by intros [= <- <-].
Qed.

(** C10: for an authenticated upload whose extension is "zip" spelled with
    an upper case letter ("report.ZIP"), the allow-list check passes, the
    sanitized name does not end in ".zip", the archive is never opened, and
    the answer is 201 whatever the zip library would say of the stored file
    (the environment's archive probe is arbitrary): the run saves the
    uploaded bytes, once, at the path of the report and the file there holds
    them afterwards, untested.  This is so provided nothing else fails: the
    writes succeed and so does the [print] of the line of success. *)
Theorem upload_uppercase_zip (request : Request) (form : FormData)
    (file : FileStorage) (w : World) (stem ext : pystr) :
  authenticated request →
  body request = Complete form →
  file_part form = Some file →
  filename file = stem ++ u "." ++ ext →
  map ascii_lower ext = u "zip" →
  ext ≠ u "zip" →
  report_written file w →
  (default [] (description_field form) = []
   ∨ io env (OpWriteText (desc_path w)) = IoOk) →
  stdout env (u "[SUCCESS] Report received: " ++ save_path file w) = None →
  allowed_file (filename file) = true
  ∧ str_endswith (secure_filename (filename file)) (u ".zip") = false
  ∧ ∃ w' new,
      upload_file env request w
        = (Done (jsonify "message" "Secure upload successful" 201), w')
      ∧ log w' = log w ++ new
      ∧ opened_archives new = []
      ∧ saved_reports new = [(save_path file w, stream file)]
      ∧ files (fs w') !! save_path file w = Some (Bytes (stream file)).
Proof.
  intros Hauth Hbody Hfile Hname Hext Hne [Hfolder Hsave] Hdesc Hprint.
  destruct (zip_spelling ext Hext) as (_ & Hdot & Hallowed).
  assert (allowed_file (filename file) = true) as Hok.
  { apply allowed_file_spec. by exists stem, ext. }
  pose proof (other_spelling_not_checked stem ext Hext Hne) as Hskip.
  rewrite <- Hname in Hskip.
  split; [done|]. split; [done|].
  destruct (zip_verdict_skipped file w Hskip) as [Hverdict Hquiet].
  pose proof (save_path_not_desc file w Hok) as Hpaths.
  pose proof (upload_accepted _ _ _ w Hauth Hbody Hfile Hok) as Hst.
  destruct Hst as [Hf|f0 ev0 left' Hf Hs|f0 ev0 Hf Hs Hz'
                   |f0 ev0 left' Hf Hs Hz' Hd Hw
                   |f0 ev0 Hf Hs Hz'|f0 ev0 Hf Hs Hz'
                   |f0 ev0 e' Hf Hs Hz'|f0 ev0 e' Hf Hs Hz'];
    try congruence; [destruct Hdesc; congruence|..];
    destruct (folder_step_events _ _ _ Hf) as (_ & Hsaved & _);
    eexists _, _; (split; [reflexivity|]);
    rewrite later_log, later_fs; (split; [reflexivity|]);
    unfold opened_archives, saved_reports in *;
    rewrite !omap_app, Hquiet, Hsaved;
    fold (opened_archives ev0);
    rewrite (folder_step_no_archive _ _ _ Hf);
    (split; [reflexivity|]); (split; [reflexivity|]);
    cbn [put_file files].
  - rewrite lookup_insert_ne by done. apply lookup_insert_eq.
  - apply lookup_insert_eq.
Qed.

(** *** The reports of a run *)

Lemma stored_saves (file : FileStorage) (description : pystr)
    (w w' : World) (o : outcome Response) :
  stored file description w (o, w') →
  ∃ new, log w' = log w ++ new
         ∧ ∀ p data, (p, data) ∈ saved_reports new →
                     p = save_path file w ∧ data = stream file.
Proof.
  intros Hst. remember (o, w') as r eqn:Hr.
  destruct Hst as [Hf|f0 ev0 left' Hf Hs|f0 ev0 Hf Hs Hz'
                   |f0 ev0 left' Hf Hs Hz' Hd Hw
                   |f0 ev0 Hf Hs Hz'|f0 ev0 Hf Hs Hz'
      |f0 ev0 e' Hf Hs Hz' Hd Hw Hout|f0 ev0 e' Hf Hs Hz' Hd Hout];
    split_run Hr; rewrite later_log;
    match goal with |- ∃ new, _ ++ ?ev = _ ∧ _ => exists ev end;
    (split; [reflexivity|]); intros p data;
    try (destruct (folder_step_events _ _ _ Hf) as (_ & Hsaved & _));
    destruct (zip_events_quiet file w) as [Hzq _];
    unfold saved_reports in *; rewrite ?omap_app, ?Hsaved, ?Hzq;
    cbn [omap list_omap app]; rewrite ?elem_of_cons, ?elem_of_nil;
    intros Hin; destruct_or?; by simplify_eq.
Qed.

(** The report a run saved, if any, is the whole buffered body of the file
    part, at the path below the day folder. *)
Lemma upload_saves (request : Request) (w : World) :
  ∃ new, log (snd (upload_file env request w)) = log w ++ new
         ∧ ∀ p data, (p, data) ∈ saved_reports new →
             ∃ form file, body request = Complete form
                          ∧ file_part form = Some file
                          ∧ p = save_path file w ∧ data = stream file.
Proof.
  destruct (upload_cases request w)
    as [(o & Hrun & _)|(form & file & Hauth & Hbody & Hfile & Hok)].
  - exists []. rewrite Hrun, app_nil_r. split; [done|].
    intros p data Hin. by apply elem_of_nil in Hin.
  - pose proof (upload_accepted _ _ _ w Hauth Hbody Hfile Hok) as Hst.
    destruct (upload_file env request w) as [o w'].
    destruct (stored_saves _ _ _ _ _ Hst) as (new & Hlog & Hsaved).
    exists new. split; [done|]. intros p data Hin.
    exists form, file. destruct (Hsaved p data Hin). done.
Qed.

(** *** The stored name *)

(** The leaf of a stored report: only letters, digits, "_", "." and "-", so
    no separator, and neither "." nor "..": it starts with a digit. *)
Lemma stored_leaf_safe (file : FileStorage) (w : World) :
  let leaf := timestamp w ++ u "_" ++ secure_filename (filename file) in
  (∀ c, c ∈ leaf → filename_ascii_keep c = true)
  ∧ leaf ≠ u "." ∧ leaf ≠ u "..".
Proof.
  intros leaf. split; [|split].
  - intros c. unfold leaf. rewrite !elem_of_app.
    intros [Hc|[Hc|Hc]].
    + apply alnum_keep.
      by apply (proj1 (Forall_forall _ _)
                  (strftime_HMS_digits (clock env (S (ticks w)))) c).
    + apply list_elem_of_singleton in Hc as ->. done.
    + by apply secure_filename_safe in Hc.
  - unfold leaf, timestamp.
    destruct (strftime_HMS_starts (clock env (S (ticks w)))) as (a & r & ->).
    intros [= Ha _]. pose proof (digit_bounds a). lia.
  - unfold leaf, timestamp.
    destruct (strftime_HMS_starts (clock env (S (ticks w)))) as (a & r & ->).
    intros [= Ha _]. pose proof (digit_bounds a). lia.
Qed.

(** A name whose sanitized form is empty fails the allow-list check. *)
Lemma empty_name_not_allowed (name : pystr) :
  secure_filename name = [] → allowed_file name = false.
Proof.
  intros Hempty. apply not_true_is_false.
  intros (stem & ext & -> & Hdot & Hext)%allowed_file_spec.
  destruct (allowed_secure_tail stem ext Hdot Hext) as [y Hy].
  destruct (allowed_extension_alnum ext Hext) as [Hne _].
  rewrite Hy in Hempty. by apply app_eq_nil in Hempty as [_ ->].
Qed.

(** C5: the sanitized form of any client name holds only letters, digits,
    "_", "." and "-", so no path separator; every report a run saves lies in
    the day folder itself, under a leaf without separator that is neither
    "." nor ".."; and a name whose sanitized form is empty is never used: the
    request is answered with an error and the world is as before. *)
Theorem upload_sanitized (client_name : pystr) (request : Request) (w : World) :
  (∀ c, c ∈ secure_filename client_name →
        filename_ascii_keep c = true ∧ c ≠ os.sep)
  ∧ (∃ new,
       log (snd (upload_file env request w)) = log w ++ new
       ∧ ∀ p data, (p, data) ∈ saved_reports new →
           ∃ leaf, p = daily_folder w ++ [os.sep] ++ leaf
                   ∧ (os.sep ∉ leaf) ∧ leaf ≠ u "." ∧ leaf ≠ u "..")
  ∧ (∀ form file,
       body request = Complete form →
       file_part form = Some file →
       secure_filename (filename file) = [] →
       ∃ resp, upload_file env request w = (Done resp, w)
               ∧ status_code resp ≠ 201).
Proof.
  split; [|split].
  - intros c Hc%secure_filename_safe. split; [done|by apply keep_not_sep].
  - destruct (upload_saves request w) as (new & Hlog & Hsaved).
    exists new. split; [done|]. intros p data Hin.
    destruct (Hsaved p data Hin) as (form & file & _ & _ & -> & _).
    destruct (stored_leaf_safe file w) as (Hkeep & Hdot & Hdots).
    eexists. split; [reflexivity|]. split; [|done].
    intros Hsep%Hkeep. by apply keep_not_sep in Hsep.
  - intros form file Hbody Hfile Hempty%empty_name_not_allowed.
    destruct (decide (auth_token request = Some (API_KEY (ET_API_KEY env))))
      as [Hauth|Hauth].
    + destruct (decide (filename file = [])) as [Hname|Hname].
      * eexists. split; [apply (reject_missing_file _ form); eauto|done].
      * eexists. split; [by eapply upload_not_allowed|done].
    + eexists. split; [by apply reject_unauthorized|done].
Qed.

(** C8: a report is only ever written from a body that was received whole.
    When the request does not carry a file part that was read to its end
    (the body is cut short: too large, connection lost; or nothing could be
    parsed from it) the run logs no operation and leaves the file system as
    it was, so no file appears at a stored path; and the data of any report
    that a run saves is the whole buffered stream of the file part, written
    after the body was read to its end. *)
Theorem upload_partial_body (request : Request) (w : World) :
  ∃ new,
    log (snd (upload_file env request w)) = log w ++ new
    ∧ ((∀ form, body request = Complete form → file_part form = None) →
       new = [] ∧ fs (snd (upload_file env request w)) = fs w)
    ∧ (∀ p data, (p, data) ∈ saved_reports new →
         ∃ form file, body request = Complete form
                      ∧ file_part form = Some file
                      ∧ p = save_path file w ∧ data = stream file).
Proof.
  destruct (upload_saves request w) as (new & Hlog & Hsaved).
  exists new. split; [done|]. split; [|done].
  intros Hpart.
  destruct (upload_cases request w)
    as [(o & Hrun & _)|(form & file & _ & Hbody & Hfile & _)].
  - rewrite Hrun in *. cbn [snd] in *. split; [|done].
    by apply (app_inv_head (log w)); rewrite app_nil_r.
  - rewrite (Hpart form Hbody) in Hfile. discriminate.
Qed.

(** ** Further properties of the handler *)

(** Every run is a rejection that leaves the world as it was, or the run of
    an accepted upload. *)
Lemma upload_runs (request : Request) (w : World) :
  (∃ o, rejected request o ∧ upload_file env request w = (o, w))
  ∨ (∃ form file,
       authenticated request ∧ body request = Complete form
       ∧ file_part form = Some file ∧ allowed_file (filename file) = true
       ∧ stored file (default [] (description_field form)) w
           (upload_file env request w)).
Proof.
  destruct (decide (auth_token request = Some (API_KEY (ET_API_KEY env))))
    as [Hauth|Hauth].
  2: { left. eexists. split; [by apply rejected_unauthorized|].
       by apply reject_unauthorized. }
  destruct (body request) as [form|e] eqn:Hbody.
  2: { left. eexists. split; [by eapply rejected_aborted|].
       by apply upload_aborted. }
  destruct (file_part form) as [file|] eqn:Hfile.
  2: { left. eexists. split; [by eapply rejected_no_file|].
       rewrite (reject_missing_file request form w Hauth Hbody); [|by left].
       by rewrite Hfile. }
  destruct (decide (filename file = [])) as [Hname|Hname].
  { left. eexists. split; [by eapply rejected_no_name|].
    rewrite (reject_missing_file request form w Hauth Hbody); [|eauto].
    by rewrite Hfile. }
  destruct (allowed_file (filename file)) eqn:Hok.
  - right. exists form, file. repeat (split; [done|]).
    by apply upload_accepted.
  - left. eexists. split; [by eapply rejected_type|].
    by eapply upload_not_allowed.
Qed.

(** X2: whatever the request and the environment, a response of the upload
    handler is one of seven fixed responses: 401 Unauthorized, 400 with one of
    five error messages, or 201 with the message of success. *)
Theorem upload_answers (request : Request) (w : World) (resp : Response) :
  fst (upload_file env request w) = Done resp → resp ∈ responses.
Proof.
  intros Hresp. unfold responses.
  destruct (upload_runs request w)
    as [(o & Hrej & Hrun)|(form & file & _ & _ & _ & _ & Hst)].
  - rewrite Hrun in Hresp. cbn [fst] in Hresp. subst o.
    inversion Hrej; subst; rewrite !elem_of_cons; auto 10.
  - destruct Hst as [Hf|f0 ev0 left' Hf Hs|f0 ev0 Hf Hs Hz
                     |f0 ev0 left' Hf Hs Hz Hd Hw
                     |f0 ev0 Hf Hs Hz Hd Hw|f0 ev0 Hf Hs Hz Hd
      |f0 ev0 e' Hf Hs Hz Hd Hw Hout|f0 ev0 e' Hf Hs Hz Hd Hout];
      cbn [fst] in Hresp; try discriminate Hresp;
      injection Hresp as <-; rewrite !elem_of_cons.
    + destruct (zip_verdict file w); cbn [zip_error]; auto 10.
    + auto 10.
    + auto 10.
Qed.


(** X4: the answer is 401 Unauthorized exactly when the token of the request
    is not the secret, so a request with the right token is never answered
    401; and when the variable ET_API_KEY is not set the secret is the
    sentinel "CHANGE_ME_IN_PROD": a request that carries it is let in. *)
Theorem upload_unauthorized_iff (request : Request) (w : World) :
  (fst (upload_file env request w) = Done (jsonify "error" "Unauthorized" 401)
   ↔ auth_token request ≠ Some (API_KEY (ET_API_KEY env)))
  ∧ (ET_API_KEY env = None →
     (fst (upload_file env request w)
        = Done (jsonify "error" "Unauthorized" 401)
      ↔ auth_token request ≠ Some (u "CHANGE_ME_IN_PROD"))).
Proof.
  assert (fst (upload_file env request w)
            = Done (jsonify "error" "Unauthorized" 401)
          ↔ auth_token request ≠ Some (API_KEY (ET_API_KEY env))) as Hiff.
  { split.
    - intros Hresp Hauth.
      destruct (upload_runs request w)
        as [(o & Hrej & Hrun)|(form & file & _ & _ & _ & _ & Hst)].
      + rewrite Hrun in Hresp. cbn [fst] in Hresp. subst o.
        inversion Hrej; subst; try done.
      + destruct Hst as [Hf|f0 ev0 left' Hf Hs|f0 ev0 Hf Hs Hz
                         |f0 ev0 left' Hf Hs Hz Hd Hw
                         |f0 ev0 Hf Hs Hz Hd Hw|f0 ev0 Hf Hs Hz Hd
      |f0 ev0 e' Hf Hs Hz Hd Hw Hout|f0 ev0 e' Hf Hs Hz Hd Hout];
          cbn [fst] in Hresp; try discriminate Hresp.
    - intros Hauth. by rewrite (reject_unauthorized request w Hauth). }
  split; [done|]. intros Hunset. by rewrite Hunset in Hiff.
Qed.


(** *** The file system across a run *)

Lemma ancestors_from_none (seen p : pystr) :
  os.sep ∉ p → ancestors_from seen p = [].
Proof.
  revert seen. induction p as [|c p IH]; intros seen Hp; [done|].
  apply not_elem_of_cons in Hp as [Hc Hp]. cbn [ancestors_from].
  rewrite (proj2 (N.eqb_neq _ _)) by done. by apply IH.
Qed.

Lemma ancestors_from_cut (seen a b : pystr) :
  os.sep ∉ a → seen ++ a ≠ [] →
  ancestors_from seen (a ++ os.sep :: b)
  = (seen ++ a) :: ancestors_from (seen ++ a ++ [os.sep]) b.
Proof.
  revert seen. induction a as [|c a IH]; intros seen Ha Hne.
  - rewrite app_nil_r in *. cbn [app ancestors_from]. rewrite N.eqb_refl.
    by destruct seen.
  - apply not_elem_of_cons in Ha as [Hc Ha]. cbn [app ancestors_from].
    rewrite (proj2 (N.eqb_neq _ _)) by done.
    rewrite IH; [|done|by destruct seen]. by rewrite <- !app_assoc.
Qed.

Lemma strftime_Ymd_no_sep (t : datetime) : os.sep ∉ strftime_Ymd t.
Proof.
  unfold strftime_Ymd, zero_pad4, zero_pad2. intros Hin.
  rewrite !elem_of_app, !elem_of_cons, !elem_of_nil in Hin.
  change (u "-") with [45] in Hin.
  rewrite !elem_of_cons, !elem_of_nil in Hin.
  unfold os.sep in Hin.
  repeat match goal with
         | H : _ ∨ _ |- _ => destruct H as [H|H]
         | H : 47 = digit ?n |- _ => pose proof (digit_bounds n); lia
         end; try done.
Qed.

(** [os.makedirs] of the day folder makes it and the upload folder. *)
Lemma daily_folder_ancestors (w : World) :
  ancestors_from [] (daily_folder w) = [UPLOAD_FOLDER].
Proof.
  unfold daily_folder. change ([os.sep] ++ ?x) with (os.sep :: x).
  rewrite ancestors_from_cut.
  - rewrite ancestors_from_none; [done|]. apply strftime_Ymd_no_sep.
  - vm_compute. intros Hin. apply list_elem_of_In in Hin. simpl in Hin.
    repeat destruct Hin as [Hin|Hin]; try discriminate Hin. done.
  - done.
Qed.

Lemma folder_step_fs (w : World) (f0 : filesystem) (ev0 : list event) :
  folder_step w = Some (f0, ev0) →
  files f0 = files (fs w)
  ∧ exists_on f0 (daily_folder w) = true
  ∧ ((dirs f0 = dirs (fs w) ∧ made_dirs ev0 = [])
     ∨ (dirs f0 = dirs (fs w) ∪ {[daily_folder w; UPLOAD_FOLDER]}
        ∧ made_dirs ev0 = [daily_folder w])).
Proof.
  unfold folder_step. destruct (folder_found w) eqn:Hfound.
  - intros [= <- <-]. split; [done|]. split; [done|]. by left.
  - destruct (io env (OpMakedirs (daily_folder w))); [|done].
    intros [= <- <-]. split; [done|].
    assert (dirs (add_dirs (daily_folder w) (fs w))
            = dirs (fs w) ∪ {[daily_folder w; UPLOAD_FOLDER]}) as Hdirs.
    { cbn [add_dirs dirs]. rewrite daily_folder_ancestors.
      cbn [list_to_set foldr]. set_solver. }
    split; [|by right].
    unfold exists_on. rewrite Hdirs. apply orb_true_iff. left.
    apply bool_decide_eq_true.
    apply elem_of_union_r, elem_of_union_l. by apply elem_of_singleton.
Qed.

(** X5: a run of the upload handler, whatever its outcome, removes nothing
    and touches nothing but its own report: every directory is still there,
    the only directories it can add are the day folder and the upload folder,
    every path that held a file still holds one, and a path that is neither
    the path of the report nor the path of the description holds what it
    held. *)
Theorem upload_frame (request : Request) (w : World) :
  let w' := snd (upload_file env request w) in
  (dirs (fs w') = dirs (fs w)
   ∨ dirs (fs w') = dirs (fs w) ∪ {[daily_folder w; UPLOAD_FOLDER]})
  ∧ (∀ p, is_Some (files (fs w) !! p) → is_Some (files (fs w') !! p))
  ∧ (∀ p, p ≠ desc_path w →
          (∀ form file, body request = Complete form →
                        file_part form = Some file → p ≠ save_path file w) →
          files (fs w') !! p = files (fs w) !! p).
Proof.
  intros w'. subst w'.
  destruct (upload_runs request w)
    as [(o & _ & Hrun)|(form & file & _ & Hbody & Hfile & _ & Hst)].
  { rewrite Hrun. cbn [snd]. split; [by left|]. done. }
  assert (∀ f0 ev0, folder_step w = Some (f0, ev0) →
            dirs f0 = dirs (fs w)
            ∨ dirs f0 = dirs (fs w) ∪ {[daily_folder w; UPLOAD_FOLDER]})
    as Hdirs.
  { intros f0 ev0 Hf. destruct (folder_step_fs _ _ _ Hf) as (_ & _ & [[? _]|[? _]]);
      auto. }
  destruct (upload_file env request w) as [o w'].
  remember (o, w') as r eqn:Hr.
  destruct Hst as [Hf|f0 ev0 left' Hf Hs|f0 ev0 Hf Hs Hz
                   |f0 ev0 left' Hf Hs Hz Hd Hw
                   |f0 ev0 Hf Hs Hz Hd Hw|f0 ev0 Hf Hs Hz Hd
      |f0 ev0 e' Hf Hs Hz Hd Hw Hout|f0 ev0 e' Hf Hs Hz Hd Hout];
    split_run Hr; cbn [snd]; rewrite later_fs;
    try (destruct (folder_step_fs _ _ _ Hf) as (Hfiles & _ & _);
         specialize (Hdirs _ _ Hf));
    try destruct left' as [partial|];
    cbn [left_behind put_file dirs files]; rewrite ?Hfiles;
    (split; [by auto|]);
    (split;
     [intros p Hp;
      repeat (rewrite lookup_insert; case_decide; [by eexists|]); done
     |intros p Hdesc Hsave; specialize (Hsave form file Hbody Hfile);
      by rewrite ?lookup_insert_ne by done]).
Qed.

(** X6: the day folder is made once.  After an upload that was answered 201,
    a run for any request whose first reading of the clock falls on the same
    date finds the folder and does not call [os.makedirs]. *)
Theorem day_folder_made_once (first next : Request) (w w1 : World)
    (resp : Response) :
  upload_file env first w = (Done resp, w1) →
  status_code resp = 201 →
  strftime_Ymd (clock env (ticks w1)) = strftime_Ymd (clock env (ticks w)) →
  ∃ new, log (snd (upload_file env next w1)) = log w1 ++ new
         ∧ made_dirs new = [].
Proof.
  intros Hrun Hcode Hdate.
  assert (folder_found w1 = true) as Hfound.
  { assert (daily_folder w1 = daily_folder w) as Hsame
      by (unfold daily_folder; by rewrite Hdate).
    unfold folder_found. rewrite Hsame.
    destruct (upload_runs first w)
      as [(o & Hrej & Hrun')|(form & file & _ & _ & _ & _ & Hst)].
    { rewrite Hrun in Hrun'. injection Hrun' as <- _.
      inversion Hrej; subst; cbn in Hcode; discriminate Hcode. }
    rewrite Hrun in Hst. remember (Done resp, w1) as r eqn:Hr.
    destruct Hst as [Hf|f0 ev0 left' Hf Hs|f0 ev0 Hf Hs Hz
                     |f0 ev0 left' Hf Hs Hz Hd Hw
                     |f0 ev0 Hf Hs Hz Hd Hw|f0 ev0 Hf Hs Hz Hd
      |f0 ev0 e' Hf Hs Hz Hd Hw Hout|f0 ev0 e' Hf Hs Hz Hd Hout];
      split_run Hr; try (cbn in Hcode; discriminate Hcode);
      destruct (folder_step_fs _ _ _ Hf) as (_ & Hex & _);
      rewrite later_fs; cbn [put_file dirs files];
      unfold exists_on in Hex; apply orb_true_iff in Hex as [Hex|Hex];
      apply orb_true_iff; try (by left);
      right; apply bool_decide_eq_true; apply bool_decide_eq_true in Hex;
      repeat (rewrite lookup_insert; case_decide; [by eexists|]); done. }
  destruct (upload_runs next w1)
    as [(o & _ & Hnext)|(form & file & _ & _ & _ & _ & Hst)].
  { exists []. rewrite Hnext, app_nil_r. done. }
  assert (∀ f0 ev0, folder_step w1 = Some (f0, ev0) → made_dirs ev0 = [])
    as Hquiet.
  { intros f0 ev0. unfold folder_step. rewrite Hfound. by intros [= <- <-]. }
  assert (folder_step w1 ≠ None) as Hsome
    by (unfold folder_step; by rewrite Hfound).
  destruct (upload_file env next w1) as [o w2].
  remember (o, w2) as r eqn:Hr.
  destruct Hst as [Hf|f0 ev0 left' Hf Hs|f0 ev0 Hf Hs Hz
                   |f0 ev0 left' Hf Hs Hz Hd Hw
                   |f0 ev0 Hf Hs Hz Hd Hw|f0 ev0 Hf Hs Hz Hd
      |f0 ev0 e' Hf Hs Hz Hd Hw Hout|f0 ev0 e' Hf Hs Hz Hd Hout];
    [done|..];
    split_run Hr; cbn [snd]; rewrite later_log;
    (eexists; split; [reflexivity|]);
    unfold made_dirs, zip_events; rewrite !omap_app;
    fold (made_dirs ev0); rewrite (Hquiet _ _ Hf);
    by destruct (str_endswith (secure_filename (filename file)) (u ".zip")).
Qed.


(** *** Stored paths across uploads *)

(** After a 201 the report is on disk at its path. *)
Lemma success_report_on_disk (request : Request) (form : FormData)
    (file : FileStorage) (w w' : World) (resp : Response) :
  body request = Complete form →
  file_part form = Some file →
  upload_file env request w = (Done resp, w') →
  status_code resp = 201 →
  files (fs w') !! save_path file w = Some (Bytes (stream file)).
Proof.
  intros Hbody Hfile Hrun Hcode.
  destruct (upload_runs request w)
    as [(o & Hrej & Hrun')|(form' & file' & _ & Hbody' & Hfile' & Hok & Hst)].
  { rewrite Hrun in Hrun'. injection Hrun' as <- _.
    inversion Hrej; subst; cbn in Hcode; discriminate Hcode. }
  rewrite Hbody in Hbody'. injection Hbody' as <-.
  rewrite Hfile in Hfile'. injection Hfile' as <-.
  pose proof (save_path_not_desc file w Hok) as Hne.
  rewrite Hrun in Hst. remember (Done resp, w') as r eqn:Hr.
  destruct Hst as [Hf|f0 ev0 left' Hf Hs|f0 ev0 Hf Hs Hz
                   |f0 ev0 left' Hf Hs Hz Hd Hw
                   |f0 ev0 Hf Hs Hz Hd Hw|f0 ev0 Hf Hs Hz Hd
      |f0 ev0 e' Hf Hs Hz Hd Hw Hout|f0 ev0 e' Hf Hs Hz Hd Hout];
    split_run Hr; try (cbn in Hcode; discriminate Hcode);
    rewrite later_fs; cbn [put_file files].
  - rewrite lookup_insert_ne by done. apply lookup_insert_eq.
  - apply lookup_insert_eq.
Qed.

(** X7: two uploads collide when they agree on the date, on the time to the
    second and on the sanitized name.  If both are answered 201, they were
    stored at the same path: after the first the file holds the first body,
    after the second it holds the second body; the first report is
    overwritten without a warning. *)
Theorem same_second_overwrites (first second : Request)
    (form1 form2 : FormData) (file1 file2 : FileStorage)
    (w w1 w2 : World) (resp1 resp2 : Response) :
  body first = Complete form1 → file_part form1 = Some file1 →
  body second = Complete form2 → file_part form2 = Some file2 →
  upload_file env first w = (Done resp1, w1) → status_code resp1 = 201 →
  upload_file env second w1 = (Done resp2, w2) → status_code resp2 = 201 →
  strftime_Ymd (clock env (ticks w1)) = strftime_Ymd (clock env (ticks w)) →
  strftime_HMS (clock env (S (ticks w1)))
    = strftime_HMS (clock env (S (ticks w))) →
  secure_filename (filename file2) = secure_filename (filename file1) →
  save_path file2 w1 = save_path file1 w
  ∧ files (fs w1) !! save_path file1 w = Some (Bytes (stream file1))
  ∧ files (fs w2) !! save_path file1 w = Some (Bytes (stream file2)).
Proof.
  intros Hb1 Hf1 Hb2 Hf2 Hrun1 Hc1 Hrun2 Hc2 Hdate Htime Hname.
  assert (save_path file2 w1 = save_path file1 w) as Hsame.
  { unfold save_path, daily_folder, timestamp. by rewrite Hdate, Htime, Hname. }
  split; [done|]. split.
  - by apply (success_report_on_disk first form1 file1 w w1 resp1).
  - rewrite <- Hsame.
    by apply (success_report_on_disk second form2 file2 w1 w2 resp2).
Qed.

Lemma digit_inj (a b : N) : a < 10 → b < 10 → digit a = digit b → a = b.
Proof.
  unfold digit. intros Ha Hb.
  rewrite (N.mod_small a 10), (N.mod_small b 10) by done. lia.
Qed.

Lemma zero_pad2_inj (n m : N) :
  n < 100 → m < 100 → zero_pad2 n = zero_pad2 m → n = m.
Proof.
  intros Hn Hm [= H1 H0]. unfold digit in H1, H0.
  pose proof (N.div_mod n 10) as En. pose proof (N.div_mod m 10) as Em.
  assert (n / 10 < 10) as Hq by (apply N.Div0.div_lt_upper_bound; lia).
  assert (m / 10 < 10) as Hq' by (apply N.Div0.div_lt_upper_bound; lia).
  rewrite (N.mod_small (n / 10) 10), (N.mod_small (m / 10) 10) in H1 by done.
  revert En Em H0 H1. generalize (n mod 10), (m mod 10), (n / 10), (m / 10).
  intros. lia.
Qed.

Lemma zero_pad4_inj (n m : N) :
  n < 10000 → m < 10000 → zero_pad4 n = zero_pad4 m → n = m.
Proof.
  intros Hn Hm [= H3 H2 H1 H0]. unfold digit in *.
  assert (∀ k, k / 1000 = k / 10 / 10 / 10) as E3
    by (intros k; by rewrite !N.Div0.div_div).
  assert (∀ k, k / 100 = k / 10 / 10) as E2
    by (intros k; by rewrite !N.Div0.div_div).
  rewrite !E3 in H3. rewrite !E2 in H2.
  pose proof (N.div_mod n 10) as En. pose proof (N.div_mod m 10) as Em.
  pose proof (N.div_mod (n / 10) 10) as En1.
  pose proof (N.div_mod (m / 10) 10) as Em1.
  pose proof (N.div_mod (n / 10 / 10) 10) as En2.
  pose proof (N.div_mod (m / 10 / 10) 10) as Em2.
  assert (n / 10 / 10 / 10 < 10) as Hq.
  { rewrite !N.Div0.div_div. apply N.Div0.div_lt_upper_bound. lia. }
  assert (m / 10 / 10 / 10 < 10) as Hq'.
  { rewrite !N.Div0.div_div. apply N.Div0.div_lt_upper_bound. lia. }
  rewrite (N.mod_small (n / 10 / 10 / 10) 10),
    (N.mod_small (m / 10 / 10 / 10) 10) in H3 by done.
  revert En Em En1 Em1 En2 Em2 H0 H1 H2 H3.
  generalize (n mod 10), (m mod 10), ((n / 10) mod 10), ((m / 10) mod 10),
    ((n / 10 / 10) mod 10), ((m / 10 / 10) mod 10),
    (n / 10 / 10 / 10), (m / 10 / 10 / 10).
  intros a0 b0 a1 b1 a2 b2 a3 b3.
  generalize (n / 10 / 10), (m / 10 / 10), (n / 10), (m / 10).
  intros. lia.
Qed.

(** X12: the stored path tells the date, the time and the sanitized name
    apart.  For readings of the clock in the ranges of a [datetime], two
    stored paths are equal only if the first readings agree on year, month
    and day, the second readings on hour, minute and second, and the
    sanitized names are equal: uploads on different days or in different
    seconds never share a path. *)
Theorem save_path_inj (file1 file2 : FileStorage) (w1 w2 : World) :
  in_range (clock env (ticks w1)) → in_range (clock env (ticks w2)) →
  in_range (clock env (S (ticks w1))) → in_range (clock env (S (ticks w2))) →
  save_path file1 w1 = save_path file2 w2 →
  let d1 := clock env (ticks w1) in
  let d2 := clock env (ticks w2) in
  let t1 := clock env (S (ticks w1)) in
  let t2 := clock env (S (ticks w2)) in
  (year d1 = year d2 ∧ month d1 = month d2 ∧ day d1 = day d2)
  ∧ (hour t1 = hour t2 ∧ minute t1 = minute t2 ∧ second t1 = second t2)
  ∧ secure_filename (filename file1) = secure_filename (filename file2).
Proof.
  intros (Hy1 & Hm1 & Hd1 & _) (Hy2 & Hm2 & Hd2 & _)
    (_ & _ & _ & Hh1 & Hmi1 & Hs1) (_ & _ & _ & Hh2 & Hmi2 & Hs2) Hpath.
  cbv zeta. unfold save_path, daily_folder, timestamp in Hpath.
  rewrite <- !app_assoc in Hpath.
  do 2 apply app_inv_head in Hpath.
  apply app_inj_1 in Hpath as [Hdate Hpath]; [|done].
  apply app_inv_head in Hpath.
  apply app_inj_1 in Hpath as [Htime Hpath]; [|done].
  apply app_inv_head in Hpath.
  split; [|split; [|done]].
  - unfold strftime_Ymd in Hdate.
    apply app_inj_1 in Hdate as [Hy Hdate]; [|done].
    apply app_inv_head in Hdate.
    apply app_inj_1 in Hdate as [Hm Hdate]; [|done].
    apply app_inv_head in Hdate.
    split; [by apply zero_pad4_inj|]. split; by apply zero_pad2_inj.
  - unfold strftime_HMS in Htime.
    apply app_inj_1 in Htime as [Hh Htime]; [|done].
    apply app_inj_1 in Htime as [Hmi Hs]; [|done].
    split; [by apply zero_pad2_inj|]. split; by apply zero_pad2_inj.
Qed.


(** *** The order of the operations *)

(** The events of an accepted run: the folder step, then, unless
    [os.makedirs] raised, the save, the archive test, the description and
    the line of success, each of the last three at most once. *)
Lemma stored_events (file : FileStorage) (description : pystr)
    (w w' : World) (o : outcome Response) :
  stored file description w (o, w') →
  ∃ ev0 tail,
    log w' = log w ++ ev0 ++ tail
    ∧ opened_archives ev0 = [] ∧ written_descriptions ev0 = []
    ∧ (tail = []
       ∨ ∃ zs ds ps,
           tail = EvSave (save_path file w) (stream file) :: zs ++ ds ++ ps
           ∧ (zs = [] ∨ zs = [EvZipOpen (save_path file w)])
           ∧ (ds = []
              ∨ (ds = [EvWriteText (desc_path w) description]
                 ∧ description ≠ [] ∧ zip_verdict file w = ZipIntact))
           ∧ (ps = [] ∨ ∃ line, ps = [EvPrint line])).
Proof.
  intros Hst. remember (o, w') as r eqn:Hr.
  assert (zip_events file w = []
          ∨ zip_events file w = [EvZipOpen (save_path file w)]) as Hzs.
  { unfold zip_events. destruct (str_endswith _ _); auto. }
  destruct Hst as [Hf|f0 ev0 left' Hf Hs|f0 ev0 Hf Hs Hz
                   |f0 ev0 left' Hf Hs Hz Hd Hw
                   |f0 ev0 Hf Hs Hz Hd Hw|f0 ev0 Hf Hs Hz Hd
      |f0 ev0 e' Hf Hs Hz Hd Hw Hout|f0 ev0 e' Hf Hs Hz Hd Hout];
    split_run Hr; rewrite later_log;
    try (pose proof (folder_step_no_archive _ _ _ Hf) as Hno;
         destruct (folder_step_events _ _ _ Hf) as (_ & _ & Hnw)).
  - eexists _, []. rewrite app_nil_r. split; [reflexivity|].
    split; [done|]. split; [done|]. by left.
  - exists ev0, [EvSave (save_path file w) (stream file)].
    split; [done|]. split; [done|]. split; [done|]. right.
    exists [], [], []. auto.
  - exists ev0, [EvSave (save_path file w) (stream file);
                 EvZipOpen (save_path file w)].
    split; [done|]. split; [done|]. split; [done|]. right.
    exists [EvZipOpen (save_path file w)], [], []. auto.
  - exists ev0, (EvSave (save_path file w) (stream file)
                 :: zip_events file w
                 ++ [EvWriteText (desc_path w) description] ++ []).
    split; [by rewrite app_nil_r|]. split; [done|]. split; [done|]. right.
    eexists _, _, _. split; [reflexivity|]. eauto 10.
  - exists ev0, (EvSave (save_path file w) (stream file)
                 :: zip_events file w
                 ++ [EvWriteText (desc_path w) description]
                 ++ [EvPrint (u "[SUCCESS] Report received: "
                               ++ save_path file w)]).
    split; [done|]. split; [done|]. split; [done|]. right.
    eexists _, _, _. split; [reflexivity|]. eauto 10.
  - exists ev0, (EvSave (save_path file w) (stream file)
                 :: zip_events file w
                 ++ [] ++ [EvPrint (u "[SUCCESS] Report received: "
                                      ++ save_path file w)]).
    split; [done|]. split; [done|]. split; [done|]. right.
    eexists _, _, _. split; [reflexivity|]. eauto 10.
  - exists ev0, (EvSave (save_path file w) (stream file)
                 :: zip_events file w
                 ++ [EvWriteText (desc_path w) description] ++ []).
    split; [by rewrite app_nil_r|]. split; [done|]. split; [done|]. right.
    eexists _, _, _. split; [reflexivity|]. eauto 10.
  - exists ev0, (EvSave (save_path file w) (stream file)
                 :: zip_events file w ++ [] ++ []).
    split; [by rewrite !app_nil_r|]. split; [done|]. split; [done|]. right.
    eexists _, _, _. split; [reflexivity|]. eauto 10.
Qed.

(** X8: the handler only opens the archive it has just stored, and writes
    the description last.  In every run an archive that is opened is the
    report of the request, at its stored path, right after it was saved; and
    a description that is written is the one of the request, at the path of
    the description, after the report was saved and only when the archive
    test passed or was not made. *)
Theorem upload_order (request : Request) (w : World) :
  ∃ new,
    log (snd (upload_file env request w)) = log w ++ new
    ∧ (∀ p, p ∈ opened_archives new →
         ∃ form file pre post,
           body request = Complete form ∧ file_part form = Some file
           ∧ p = save_path file w
           ∧ new = pre ++ EvSave p (stream file) :: EvZipOpen p :: post)
    ∧ (∀ p text, (p, text) ∈ written_descriptions new →
         ∃ form file pre post,
           body request = Complete form ∧ file_part form = Some file
           ∧ p = desc_path w ∧ text = default [] (description_field form)
           ∧ text ≠ []
           ∧ zip_verdict file w = ZipIntact
           ∧ new = pre ++ EvSave (save_path file w) (stream file) :: post
           ∧ EvWriteText p text ∈ post).
Proof.
  destruct (upload_runs request w)
    as [(o & _ & Hrun)|(form & file & _ & Hbody & Hfile & _ & Hst)].
  { exists []. rewrite Hrun, app_nil_r. split; [done|].
    split; intros *; by intros ?%elem_of_nil. }
  destruct (upload_file env request w) as [o w'].
  destruct (stored_events _ _ _ _ _ Hst)
    as (ev0 & tail & Hlog & Hno & Hnw & Htail).
  exists (ev0 ++ tail). split; [done|].
  destruct Htail as [->|(zs & ds & ps & -> & Hzs & Hds & Hps)].
  { rewrite app_nil_r, Hno, Hnw. split; intros *; by intros ?%elem_of_nil. }
  assert (opened_archives ps = [] ∧ written_descriptions ps = [])
    as [Hpo Hpw] by (by destruct Hps as [->|[line ->]]).
  assert (opened_archives ds = []) as Hdo
    by (by destruct Hds as [->|(-> & _)]).
  assert (written_descriptions zs = []) as Hzw by (by destruct Hzs as [->| ->]).
  split.
  - intros p Hp. exists form, file, ev0.
    unfold opened_archives in *. rewrite omap_app in Hp. cbn [omap list_omap] in Hp.
    rewrite !omap_app, Hno, Hdo, Hpo, !app_nil_r in Hp. cbn [app] in Hp.
    destruct Hzs as [->| ->]; [by apply elem_of_nil in Hp|].
    apply list_elem_of_singleton in Hp as ->. by exists (ds ++ ps).
  - intros p text Hp. exists form, file, ev0, (zs ++ ds ++ ps).
    unfold written_descriptions in *.
    rewrite omap_app in Hp. cbn [omap list_omap] in Hp.
    rewrite !omap_app, Hnw, Hzw, Hpw, app_nil_r in Hp. cbn [app] in Hp.
    destruct Hds as [->|(-> & Hne & Hverdict)]; [by apply elem_of_nil in Hp|].
    apply list_elem_of_singleton in Hp as [= -> ->].
    repeat (split; [done|]).
    rewrite !elem_of_app, elem_of_cons. auto.
Qed.


(** *** The sanitizer on names in ASCII *)

Lemma keep_cases (c : N) :
  filename_ascii_keep c = true →
  is_alnum c = true ∨ c = 95 ∨ c = 46 ∨ c = 45.
Proof.
  unfold filename_ascii_keep, is_alnum.
  rewrite !orb_true_iff, !N.eqb_eq. tauto.
Qed.

Lemma keep_ascii (c : N) : filename_ascii_keep c = true → is_ascii c = true.
Proof.
  intros [H|H]%keep_cases; [by apply alnum_ascii|].
  apply N.ltb_lt. lia.
Qed.

Lemma keep_not_space (c : N) :
  filename_ascii_keep c = true → is_space c = false.
Proof.
  intros [H|H]%keep_cases; [by apply alnum_not_space|].
  unfold is_space. apply orb_false_iff; split; apply andb_false_iff;
    rewrite !N.leb_gt; lia.
Qed.

Lemma forallb_ascii (s : pystr) :
  Forall (λ c, is_ascii c = true) s → forallb is_ascii s = true.
Proof.
  intros H. apply forallb_forall. intros c Hc%list_elem_of_In.
  by apply (proj1 (Forall_forall _ _) H).
Qed.

(** The first steps of the sanitizer on a name in ASCII: nothing is
    decomposed and nothing is dropped. *)
Lemma secure_filename_ascii_steps (s : pystr) :
  Forall (λ c, is_ascii c = true) s →
  secure_filename s =
  str_strip (u "._")
    (List.filter filename_ascii_keep
       (str_join (u "_") (str_split (str_replace os.sep 32 s)))).
Proof.
  intros Hs. rewrite secure_filename_posix. unfold normalize_NFKD.
  rewrite (forallb_ascii s Hs).
  unfold encode_ascii_ignore. by rewrite (filter_all is_ascii s Hs).
Qed.

Lemma str_split_one (sep s : pystr) :
  Forall (λ c, is_space c = false) s → str_join sep (str_split s) = s.
Proof.
  intros Hs. unfold str_split. destruct s as [|c s]; [done|].
  by rewrite (split_from_word [] (c :: s)).
Qed.

(** A name of kept characters only loses the dots and underscores at its
    ends. *)
Lemma secure_filename_plain (s : pystr) :
  Forall (λ c, filename_ascii_keep c = true) s →
  secure_filename s = str_strip (u "._") s.
Proof.
  intros Hs. rewrite secure_filename_ascii_steps
    by (eapply Forall_impl; [done|apply keep_ascii]).
  rewrite str_replace_none.
  2: { eapply Forall_impl; [done|]. intros c Hc. cbn beta.
       apply N.eqb_neq. by apply keep_not_sep. }
  rewrite str_split_one
    by (eapply Forall_impl; [done|apply keep_not_space]).
  by rewrite (filter_all filename_ascii_keep s Hs).
Qed.

Lemma str_lstrip_head (chars s r : pystr) (c : N) :
  str_lstrip chars s = c :: r → c ∉ chars.
Proof.
  induction s as [|a s IH]; simpl; [done|].
  case_bool_decide as Ha; [done|]. by intros [= <- _].
Qed.

(** [strip] leaves a string that has nothing more to strip. *)
Lemma str_strip_stripped (chars s : pystr) : stripped chars (str_strip chars s).
Proof.
  unfold str_strip, str_rstrip. set (y := str_lstrip chars s). split.
  - intros c r Hz.
    destruct (str_lstrip_suffix chars (rev y)) as [p Hp].
    apply (f_equal (@rev N)) in Hp.
    rewrite rev_involutive, rev_app_distr, Hz in Hp.
    by apply (str_lstrip_head chars s (r ++ rev p) c).
  - intros c r Hz. apply (f_equal (@rev N)) in Hz.
    rewrite rev_involutive, rev_app_distr in Hz.
    by apply (str_lstrip_head chars (rev y) (rev r) c).
Qed.

Lemma str_strip_fixed (chars s : pystr) :
  stripped chars s → str_strip chars s = s.
Proof.
  intros [Hfirst Hlast]. unfold str_strip, str_rstrip.
  assert (str_lstrip chars s = s) as ->.
  { destruct s as [|c r]; [done|]. simpl.
    by rewrite bool_decide_eq_false_2 by (by eapply Hfirst). }
  destruct (rev s) as [|c r] eqn:E.
  - apply (f_equal (@rev N)) in E. by rewrite rev_involutive in E.
  - simpl. rewrite bool_decide_eq_false_2.
    + by rewrite <- E, rev_involutive.
    + apply (Hlast c (rev r)).
      apply (f_equal (@rev N)) in E. by rewrite rev_involutive in E.
Qed.

Lemma secure_filename_stripped (s : pystr) :
  stripped (u "._") (secure_filename s).
Proof. rewrite secure_filename_posix. apply str_strip_stripped. Qed.

Lemma secure_filename_kept (s : pystr) :
  Forall (λ c, filename_ascii_keep c = true) (secure_filename s).
Proof. apply Forall_forall. intros c. apply secure_filename_safe. Qed.

(** X9: the sanitizer changes nothing in a clean name.  A name written with
    letters, digits, "_", "." and "-" that neither starts nor ends with a
    dot or an underscore is its own sanitized form; the report is then
    stored under the client's name after the time stamp. *)
Theorem secure_filename_clean (file : FileStorage) (w : World) :
  Forall (λ c, filename_ascii_keep c = true) (filename file) →
  stripped (u "._") (filename file) →
  secure_filename (filename file) = filename file
  ∧ save_path file w
    = daily_folder w ++ [os.sep] ++ timestamp w ++ u "_" ++ filename file.
Proof.
  intros Hkeep Hclean.
  assert (secure_filename (filename file) = filename file) as Hfix.
  { rewrite secure_filename_plain by done. by apply str_strip_fixed. }
  split; [done|]. unfold save_path. by rewrite Hfix.
Qed.

(** X10: sanitizing twice is sanitizing once, and the sanitized name is
    clean: it holds kept characters only and has no dot or underscore at
    either end. *)
Theorem secure_filename_idempotent (s : pystr) :
  secure_filename (secure_filename s) = secure_filename s
  ∧ Forall (λ c, filename_ascii_keep c = true) (secure_filename s)
  ∧ stripped (u "._") (secure_filename s).
Proof.
  pose proof (secure_filename_kept s) as Hkeep.
  pose proof (secure_filename_stripped s) as Hclean.
  split; [|done].
  rewrite (secure_filename_plain (secure_filename s)) by done.
  by apply str_strip_fixed.
Qed.


(** *** Which archives are tested *)

Lemma split_from_tail_chars (P : N → Prop) (word s t : pystr) :
  Forall P word → Forall P s →
  Forall (λ c, is_space c = false) t → t ≠ [] →
  ∃ init w0, split_from word (s ++ t) = init ++ [w0 ++ t]
             ∧ Forall (Forall P) init ∧ Forall P w0.
Proof.
  intros Hw Hs Ht Hne. revert word Hw.
  induction Hs as [|c s Hc Hs IH]; intros word Hw.
  - exists [], word. simpl. split; [|done]. apply split_from_word; [done|].
    destruct t; [done|]. by destruct word.
  - simpl. destruct (is_space c).
    + destruct (IH [] (Forall_nil_2 _)) as (init & w0 & -> & Hi & Hw0).
      destruct word as [|n word]; [by exists init, w0|].
      exists ((n :: word) :: init), w0. split; [done|].
      split; [by constructor|done].
    + apply IH. apply Forall_app. split; [done|]. by constructor.
Qed.

Lemma str_join_tail_chars (P : N → Prop) (sep : pystr) (init : list pystr)
    (w0 t : pystr) :
  Forall P sep → Forall (Forall P) init → Forall P w0 →
  ∃ y, str_join sep (init ++ [w0 ++ t]) = y ++ t ∧ Forall P y.
Proof.
  intros Hsep Hi Hw0. induction Hi as [|a init Ha Hi (y & IH & Hy)]; simpl.
  - by exists w0.
  - destruct (init ++ [w0 ++ t]) eqn:E; [by destruct init|].
    rewrite IH. exists (a ++ sep ++ y). rewrite <- !app_assoc.
    split; [done|]. rewrite !Forall_app. done.
Qed.

Lemma str_lstrip_all (chars d t : pystr) :
  Forall (λ c, c ∈ chars) d → str_lstrip chars (d ++ t) = str_lstrip chars t.
Proof.
  induction 1 as [|c d Hc _ IH]; simpl; [done|].
  by rewrite bool_decide_eq_true_2.
Qed.

(** A stem in ASCII without a letter, a digit or a hyphen vanishes: the
    sanitized name is the extension alone, without its dot. *)
Lemma secure_filename_bare_stem (stem ext : pystr) :
  Forall (λ c, is_ascii c = true ∧ is_alnum c = false ∧ c ≠ 45) stem →
  Forall (λ c, is_alnum c = true) ext → ext ≠ [] →
  secure_filename (stem ++ 46 :: ext) = ext.
Proof.
  intros Hstem Hext Hne.
  set (J := λ c : N, is_alnum c = false ∧ c ≠ 45).
  rewrite secure_filename_ascii_steps.
  2: { apply Forall_app. split.
       - eapply Forall_impl; [done|]. by intros c [? _].
       - constructor; [done|]. eapply Forall_impl; [done|apply alnum_ascii]. }
  unfold str_replace at 1. rewrite map_app. cbn [map].
  change (46 =? os.sep) with false. cbn iota.
  fold (str_replace os.sep 32 ext). fold (str_replace os.sep 32 stem).
  rewrite (str_replace_none _ _ ext)
    by (eapply Forall_impl; [done|apply alnum_not_sep]).
  assert (Forall J (str_replace os.sep 32 stem)) as HJ.
  { unfold str_replace. apply Forall_forall. intros c Hc.
    apply list_elem_of_In, in_map_iff in Hc as (c0 & <- & Hc0).
    apply list_elem_of_In in Hc0.
    destruct (proj1 (Forall_forall _ _) Hstem c0 Hc0) as (_ & Ha & Hh).
    destruct (c0 =? os.sep); by split. }
  destruct (split_from_tail_chars J [] (str_replace os.sep 32 stem) (46 :: ext))
    as (init & w0 & Hsplit & Hi & Hw0); [done|done| |done|].
  { constructor; [done|]. eapply Forall_impl; [done|apply alnum_not_space]. }
  unfold str_split. rewrite Hsplit.
  destruct (str_join_tail_chars J (u "_") init w0 (46 :: ext))
    as (y & -> & Hy); [|done|done|].
  { repeat constructor. done. }
  rewrite List.filter_app. cbn [List.filter].
  change (filename_ascii_keep 46) with true. cbn iota.
  rewrite (filter_all filename_ascii_keep ext)
    by (eapply Forall_impl; [done|apply alnum_keep]).
  unfold str_strip. rewrite str_lstrip_all.
  2: { apply Forall_forall. intros c Hc.
       apply list_elem_of_In, filter_In in Hc as [Hin Hk].
       apply list_elem_of_In in Hin.
       destruct (proj1 (Forall_forall _ _) Hy c Hin) as [Ha Hh].
       change (u "._") with [46; 95].
       rewrite !elem_of_cons.
       destruct (keep_cases c Hk) as [?|[?|[?|?]]]; [congruence|auto|auto|done]. }
  change (u "._") with [46; 95]. cbn [str_lstrip].
  rewrite bool_decide_eq_true_2 by apply list_elem_of_here.
  assert (Forall (λ c, c ∉ [46; 95]) ext) as Hout.
  { eapply Forall_impl; [done|]. intros c Hc.
    by apply (alnum_not_stripped c). }
  destruct ext as [|e ext]; [done|]. cbn [str_lstrip].
  rewrite bool_decide_eq_false_2 by (by apply Forall_cons in Hout as [? _]).
  by apply (str_rstrip_keeps _ [] (e :: ext)).
Qed.

(** The sanitized name ends as the client's name does, from a letter, a
    digit or a hyphen on, over kept characters. *)
Lemma secure_filename_keep_tail (s k : pystr) (a z : N) :
  is_alnum a = true ∨ a = 45 →
  Forall (λ c, filename_ascii_keep c = true) k →
  is_alnum z = true →
  ∃ y, secure_filename (s ++ a :: k ++ [z]) = y ++ a :: k ++ [z].
Proof.
  intros Ha Hk Hz. set (t := a :: k ++ [z]).
  assert (Forall (λ c, filename_ascii_keep c = true) t) as Ht.
  { constructor; [destruct Ha as [?| ->]; [by apply alnum_keep|done]|].
    apply Forall_app. split; [done|]. constructor; [by apply alnum_keep|done]. }
  assert (a ∉ u "._") as Hfirst.
  { destruct Ha as [?| ->]; [by apply alnum_not_stripped|].
    change (u "._") with [46; 95]. rewrite !not_elem_of_cons.
    repeat split; [done|done|apply not_elem_of_nil]. }
  rewrite secure_filename_posix.
  rewrite normalize_NFKD_tail
    by (eapply Forall_impl; [done|apply keep_ascii]).
  unfold encode_ascii_ignore. rewrite List.filter_app.
  rewrite (filter_all is_ascii t)
    by (eapply Forall_impl; [done|apply keep_ascii]).
  unfold str_replace at 1. rewrite map_app. fold (str_replace os.sep 32 t).
  rewrite (str_replace_none _ _ t).
  2: { eapply Forall_impl; [done|]. intros c Hc. cbn beta.
       apply N.eqb_neq. by apply keep_not_sep. }
  match goal with |- context [str_split (?x ++ t)] => set (s1 := x) end.
  destruct (split_from_tail [] s1 t) as (init & w0 & Hsplit);
    [eapply Forall_impl; [done|apply keep_not_space]|done|].
  unfold str_split. rewrite Hsplit.
  destruct (str_join_tail (u "_") init w0 t) as [y1 ->].
  rewrite List.filter_app.
  rewrite (filter_all filename_ascii_keep t) by done.
  unfold str_strip, t.
  destruct (str_lstrip_keeps (u "._") (List.filter filename_ascii_keep y1)
              (k ++ [z]) a Hfirst) as [y' ->].
  exists y'.
  change (y' ++ a :: k ++ [z]) with (y' ++ (a :: k) ++ [z]).
  rewrite app_assoc. apply str_rstrip_keeps; [|done].
  constructor; [by apply alnum_not_stripped|done].
Qed.


Lemma zip_extension_allowed (stem : pystr) :
  allowed_file (stem ++ u ".zip") = true.
Proof.
  apply allowed_file_spec. exists stem, (u "zip"). split; [done|].
  destruct (zip_spelling (u "zip") eq_refl) as (_ & Hdot & Hok). done.
Qed.

(** X11: an archive whose name has nothing before ".zip" but dots,
    underscores, white space, separators and other signs of ASCII (".zip",
    "__.zip", "../.zip") is never tested.  The allow-list check passes on the
    client's name, the sanitized name is "zip" without the dot, so that no
    archive is opened and the answer is 201 whatever the zip library would
    say of the stored bytes; the report is stored as [HHMMSS_zip].  This is
    so provided nothing else fails: the writes succeed and so does the
    [print] of the line of success. *)
Theorem upload_untested_zip (request : Request) (form : FormData)
    (file : FileStorage) (w : World) (stem : pystr) :
  authenticated request →
  body request = Complete form →
  file_part form = Some file →
  filename file = stem ++ u ".zip" →
  Forall (λ c, is_ascii c = true ∧ is_alnum c = false ∧ c ≠ 45) stem →
  report_written file w →
  (default [] (description_field form) = []
   ∨ io env (OpWriteText (desc_path w)) = IoOk) →
  stdout env (u "[SUCCESS] Report received: " ++ save_path file w) = None →
  allowed_file (filename file) = true
  ∧ secure_filename (filename file) = u "zip"
  ∧ ∃ w' new,
      upload_file env request w
        = (Done (jsonify "message" "Secure upload successful" 201), w')
      ∧ log w' = log w ++ new
      ∧ opened_archives new = []
      ∧ files (fs w') !! (daily_folder w ++ [os.sep] ++ timestamp w ++ u "_zip")
        = Some (Bytes (stream file)).
Proof.
  intros Hauth Hbody Hfile Hname Hstem [Hfolder Hsave] Hdesc Hprint.
  assert (allowed_file (filename file) = true) as Hok
    by (rewrite Hname; apply zip_extension_allowed).
  assert (secure_filename (filename file) = u "zip") as Hsec.
  { rewrite Hname. change (stem ++ u ".zip") with (stem ++ 46 :: u "zip").
    apply secure_filename_bare_stem; [done| |done].
    repeat constructor. }
  split; [done|]. split; [done|].
  assert (str_endswith (secure_filename (filename file)) (u ".zip") = false)
    as Hskip by (by rewrite Hsec).
  destruct (zip_verdict_skipped file w Hskip) as [Hverdict Hquiet].
  assert (daily_folder w ++ [os.sep] ++ timestamp w ++ u "_zip"
          = save_path file w) as ->.
  { unfold save_path. rewrite Hsec. done. }
  pose proof (save_path_not_desc file w Hok) as Hne.
  pose proof (upload_accepted _ _ _ w Hauth Hbody Hfile Hok) as Hst.
  destruct Hst as [Hf|f0 ev0 left' Hf Hs|f0 ev0 Hf Hs Hz'
                   |f0 ev0 left' Hf Hs Hz' Hd Hw
                   |f0 ev0 Hf Hs Hz'|f0 ev0 Hf Hs Hz'
      |f0 ev0 e' Hf Hs Hz' Hd Hw Hout|f0 ev0 e' Hf Hs Hz' Hd Hout];
    try congruence; [destruct Hdesc; congruence|..];
    eexists _, _; (split; [reflexivity|]);
    rewrite later_log, later_fs; (split; [reflexivity|]);
    (split;
     [unfold opened_archives; rewrite !omap_app, Hquiet;
      fold (opened_archives ev0);
      by rewrite (folder_step_no_archive _ _ _ Hf)|]);
    cbn [put_file files].
  - rewrite lookup_insert_ne by done. apply lookup_insert_eq.
  - apply lookup_insert_eq.
Qed.

(** X13: an archive with an ordinary name is tested.  When the client's name
    ends in ".zip" after a letter, a digit or a hyphen followed by kept
    characters only ("a.zip", "my report-2.zip"), the sanitized name ends in
    ".zip" as well: an upload that is answered 201 has had its stored file
    opened as an archive, and the zip library has found it intact. *)
Theorem upload_zip_tested (request : Request) (form : FormData)
    (file : FileStorage) (w w' : World) (resp : Response)
    (s k : pystr) (a : N) :
  body request = Complete form →
  file_part form = Some file →
  filename file = s ++ a :: k ++ u ".zip" →
  is_alnum a = true ∨ a = 45 →
  Forall (λ c, filename_ascii_keep c = true) k →
  upload_file env request w = (Done resp, w') →
  status_code resp = 201 →
  str_endswith (secure_filename (filename file)) (u ".zip") = true
  ∧ zip_probe env (save_path file w) (Some (Bytes (stream file))) = ZipIntact
  ∧ EvZipOpen (save_path file w) ∈ log w'.
Proof.
  intros Hbody Hfile Hname Ha Hk Hrun Hcode.
  assert (str_endswith (secure_filename (filename file)) (u ".zip") = true)
    as Hends.
  { destruct (secure_filename_keep_tail s (k ++ u ".zi") a 112 Ha) as [y Hy].
    - apply Forall_app. split; [done|]. repeat constructor.
    - done.
    - rewrite Hname. apply endswith_spec. exists (y ++ a :: k).
      change (u ".zip") with (u ".zi" ++ [112]).
      rewrite app_assoc, Hy, <- !app_assoc. done. }
  split; [done|]. rewrite <- (zip_verdict_checked file w Hends).
  destruct (upload_runs request w)
    as [(o & Hrej & Hrun')|(form' & file' & _ & Hbody' & Hfile' & Hok & Hst)].
  { rewrite Hrun in Hrun'. injection Hrun' as <- _.
    inversion Hrej; subst; cbn in Hcode; discriminate Hcode. }
  rewrite Hbody in Hbody'. injection Hbody' as <-.
  rewrite Hfile in Hfile'. injection Hfile' as <-.
  assert (zip_events file w = [EvZipOpen (save_path file w)]) as Hev
    by (unfold zip_events; by rewrite Hends).
  rewrite Hrun in Hst. remember (Done resp, w') as r eqn:Hr.
  destruct Hst as [Hf|f0 ev0 left' Hf Hs|f0 ev0 Hf Hs Hz
                   |f0 ev0 left' Hf Hs Hz Hd Hw
                   |f0 ev0 Hf Hs Hz Hd Hw|f0 ev0 Hf Hs Hz Hd
      |f0 ev0 e' Hf Hs Hz Hd Hw Hout|f0 ev0 e' Hf Hs Hz Hd Hout];
    split_run Hr; try (cbn in Hcode; discriminate Hcode);
    (split; [done|]); rewrite later_log, Hev, !elem_of_app, !elem_of_cons;
    auto 10.
Qed.


(** *** Reports, descriptions and the line of success *)

(** X16: a report is never stored at the path of a description.  Whatever
    the two readings of the clock and whenever the description was written,
    the path of the report of an allowed name differs from the path of a
    description: the sanitized name ends in the client's extension, and
    "desc.txt" does not. *)
Theorem report_not_description (file : FileStorage) (w1 w2 : World) :
  allowed_file (filename file) = true → save_path file w1 ≠ desc_path w2.
Proof.
  intros (stem & ext & Hname & Hdot & Hext)%allowed_file_spec E.
  unfold save_path, desc_path, daily_folder, timestamp in E.
  rewrite <- !app_assoc in E.
  do 2 apply app_inv_head in E.
  apply app_inj_1 in E as [_ E]; [|done].
  apply app_inv_head in E.
  apply app_inj_1 in E as [_ E]; [|done].
  change (u "_desc.txt") with (u "_" ++ u "desc.txt") in E.
  apply app_inv_head in E.
  destruct (allowed_secure_tail stem ext Hdot Hext) as [y Hy].
  rewrite Hname, Hy in E.
  apply allowed_extension_spelling in Hext.
  apply (f_equal (map ascii_lower)) in E. rewrite map_app in E.
  assert (str_endswith (map ascii_lower (u "desc.txt")) (map ascii_lower ext)
          = true) as Hends.
  { apply endswith_spec. by exists (map ascii_lower y). }
  revert Hext Hends. generalize (map ascii_lower ext). intros l Hl.
  unfold ALLOWED_EXTENSIONS in Hl. rewrite !elem_of_cons, elem_of_nil in Hl.
  destruct Hl as [->|[->|[]]]; vm_compute; discriminate.
Qed.

Lemma folder_step_silent (w : World) (f0 : filesystem) (ev0 : list event) :
  folder_step w = Some (f0, ev0) → printed ev0 = [].
Proof.
  unfold folder_step. destruct (folder_found w).
  - by intros [= <- <-].
  - destruct (io env (OpMakedirs (daily_folder w))); [|done].
    by intros [= <- <-].
Qed.

Lemma zip_events_silent (file : FileStorage) (w : World) :
  printed (zip_events file w) = [].
Proof. unfold zip_events. by destruct (str_endswith _ _). Qed.

(** X17: the line of success is printed for stored reports only.  A run
    prints nothing, or it prints the one line "[SUCCESS] Report received: "
    with the path of the report; in that case the answer is 201 and the
    file at the printed path holds the uploaded bytes.  Every 201 comes with
    its line. *)
Theorem success_line (request : Request) (w : World) :
  ∃ new,
    log (snd (upload_file env request w)) = log w ++ new
    ∧ (printed new = []
       ∨ ∃ form file,
           body request = Complete form ∧ file_part form = Some file
           ∧ printed new = [u "[SUCCESS] Report received: " ++ save_path file w]
           ∧ fst (upload_file env request w)
             = Done (jsonify "message" "Secure upload successful" 201)
           ∧ files (fs (snd (upload_file env request w))) !! save_path file w
             = Some (Bytes (stream file)))
    ∧ (∀ resp, fst (upload_file env request w) = Done resp →
               status_code resp = 201 → printed new ≠ []).
Proof.
  destruct (upload_runs request w)
    as [(o & Hrej & Hrun)|(form & file & _ & Hbody & Hfile & Hok & Hst)].
  { exists []. rewrite Hrun, app_nil_r. split; [done|]. split; [by left|].
    cbn [fst]. intros resp -> Hcode.
    inversion Hrej; subst; cbn in Hcode; discriminate Hcode. }
  pose proof (save_path_not_desc file w Hok) as Hne.
  pose proof (zip_events_silent file w) as Hzq.
  destruct (upload_file env request w) as [o w']. cbn [fst snd].
  remember (o, w') as r eqn:Hr.
  destruct Hst as [Hf|f0 ev0 left' Hf Hs|f0 ev0 Hf Hs Hz
                   |f0 ev0 left' Hf Hs Hz Hd Hw
                   |f0 ev0 Hf Hs Hz Hd Hw|f0 ev0 Hf Hs Hz Hd
      |f0 ev0 e' Hf Hs Hz Hd Hw Hout|f0 ev0 e' Hf Hs Hz Hd Hout];
    split_run Hr; rewrite later_log, later_fs;
    try pose proof (folder_step_silent _ _ _ Hf) as Hq;
    (eexists; split; [reflexivity|]); unfold printed in *;
    rewrite ?omap_app, ?Hq, ?Hzq; cbn [omap list_omap app].
  - split; [by left|]. intros resp [=].
  - split; [by left|]. intros resp [=].
  - split; [by left|]. intros resp [= <-] Hcode. cbn in Hcode. discriminate Hcode.
  - split; [by left|]. intros resp [=].
  - split; [|done]. right. exists form, file.
    repeat (split; [done|]). cbn [put_file files].
    rewrite lookup_insert_ne by done. apply lookup_insert_eq.
  - split; [|done]. right. exists form, file.
    repeat (split; [done|]). cbn [put_file files]. apply lookup_insert_eq.
  - split; [by left|]. intros resp [=].
  - split; [by left|]. intros resp [=].
Qed.

End Upload.


(** ** The start of the process *)

Section Process.
Variable env : Env.

Lemma startup_folder_dirs (f : filesystem) :
  dirs (add_dirs UPLOAD_FOLDER f) = dirs f ∪ {[ UPLOAD_FOLDER ]}.
Proof.
  unfold add_dirs. cbn [dirs].
  rewrite (ancestors_from_none [] UPLOAD_FOLDER).
  - cbn [list_to_set]. by rewrite (right_id_L ∅ (∪)).
  - intros Hin. vm_compute in Hin.
    apply list_elem_of_In in Hin. simpl in Hin.
    repeat (destruct Hin as [Hin|Hin]; [discriminate Hin|]). done.
Qed.

(** X1: the upload folder is made once.  When the module level code has run
    without an exception the folder exists, no file was touched and at most
    the folder itself was added; run again, in whatever environment, it
    finds the folder, calls [os.makedirs] no more and leaves the file system
    as it is. *)
Theorem startup_once (w w1 : World) :
  startup env w = (Done (), w1) →
  exists_on (fs w1) UPLOAD_FOLDER = true
  ∧ files (fs w1) = files (fs w)
  ∧ (dirs (fs w1) = dirs (fs w)
     ∨ (exists_on (fs w) UPLOAD_FOLDER = false
        ∧ dirs (fs w1) = dirs (fs w) ∪ {[ UPLOAD_FOLDER ]}))
  ∧ ∀ env' : Env,
      startup env' w1 = (Done (), emit (EvExists UPLOAD_FOLDER) w1).
Proof.
  unfold startup, os_path_exists, os_makedirs.
  unfold mbind, M_bind, bind, ret. cbn [fs emit].
  fold (exists_on (fs w) UPLOAD_FOLDER).
  destruct (exists_on (fs w) UPLOAD_FOLDER) eqn:Hex; cbn [negb].
  - intros Hrun. apply (f_equal snd) in Hrun. cbn [snd] in Hrun. subst w1.
    cbn [fs emit]. rewrite Hex. split; [done|]. split; [done|].
    split; [by left|]. intros env'.
    fold (exists_on (fs w) UPLOAD_FOLDER). by rewrite Hex.
  - destruct (io env (OpMakedirs UPLOAD_FOLDER)); [|intros [=]].
    intros Hrun. apply (f_equal snd) in Hrun. cbn [snd] in Hrun. subst w1.
    cbn [fs set_fs emit].
    assert (exists_on (add_dirs UPLOAD_FOLDER (fs w)) UPLOAD_FOLDER = true)
      as Hnow.
    { unfold exists_on. rewrite startup_folder_dirs.
      rewrite bool_decide_eq_true_2; [done|].
      apply elem_of_union_r. by apply elem_of_singleton. }
    split; [done|]. split; [done|].
    split; [right; split; [done|apply startup_folder_dirs]|].
    intros env'.
    fold (exists_on (add_dirs UPLOAD_FOLDER (fs w)) UPLOAD_FOLDER).
    by rewrite Hnow.
Qed.

(** X14: the main block serves HTTPS exactly when both certificate files
    exist, and plain HTTP with a printed warning otherwise.  It returns the
    arguments of [app.run] without a change to the file system; the host and
    the port are fixed, and [key.pem] is only looked up when [cert.pem] was
    found.  The one other way the block ends is an exception of [print] on
    one of its lines, when the standard output refuses it; the file system
    is unchanged then as well. *)
Theorem main_serves (w : World) :
  (∃ cfg w' new,
     main env w = (Done cfg, w')
     ∧ fs w' = fs w ∧ log w' = log w ++ new
     ∧ run_host cfg = HOST ∧ run_port cfg = PORT
     ∧ (ssl_context cfg = Some (u "cert.pem", u "key.pem")
        ∨ ssl_context cfg = None)
     ∧ (ssl_context cfg = Some (u "cert.pem", u "key.pem") ↔
        exists_on (fs w) (u "cert.pem") = true
        ∧ exists_on (fs w) (u "key.pem") = true)
     ∧ (u "[!] WARNING: SSL Certs not found. Serving HTTP (Insecure)."
          ∈ printed new ↔ ssl_context cfg = None)
     ∧ looked_up new
       = (if exists_on (fs w) (u "cert.pem")
          then [u "cert.pem"; u "key.pem"] else [u "cert.pem"])
     ∧ made_dirs new = [])
  ∨ (∃ e line w' new,
       main env w = (Raised e, w')
       ∧ stdout env line = Some e
       ∧ fs w' = fs w ∧ log w' = log w ++ new ∧ made_dirs new = []).
Proof.
  unfold main, print, os_path_exists.
  unfold mbind, M_bind, bind, mret, M_ret, ret. cbn [fs emit log].
  destruct (stdout env (u "[*] ET Secure Server v9.0. API Key Active: " ++ _))
    as [e|] eqn:Hbanner; cbn [fs emit log].
  { right. eexists e, _, w, []. rewrite app_nil_r. by eauto 10. }
  fold (exists_on (fs w) (u "cert.pem")).
  destruct (exists_on (fs w) (u "cert.pem")) eqn:Hcert; cbn [fs emit log].
  - fold (exists_on (fs w) (u "key.pem")).
    destruct (exists_on (fs w) (u "key.pem")) eqn:Hkey.
    + destruct (stdout env (u "[*] SSL Context Loaded. Serving HTTPS."))
        as [e|] eqn:Hline.
      * right. eexists e, _, _, _. split; [reflexivity|]. split; [done|].
        cbn [fs emit log]. rewrite <- !app_assoc. by eauto.
      * left. eexists _, _, _. split; [reflexivity|]. cbn [fs emit log].
        split; [done|]. rewrite <- !app_assoc. split; [reflexivity|].
        cbn [run_host run_port ssl_context].
        unfold printed, looked_up, made_dirs; cbn [omap list_omap app].
        split; [done|]. split; [done|]. split; [auto|].
        split; [done|]. split; [|done]. split; [|done].
        rewrite !elem_of_cons, elem_of_nil. intros [H|[H|[]]]; discriminate H.
    + destruct (stdout env
                  (u "[!] WARNING: SSL Certs not found. Serving HTTP (Insecure)."))
        as [e|] eqn:Hline.
      * right. eexists e, _, _, _. split; [reflexivity|]. split; [done|].
        cbn [fs emit log]. rewrite <- !app_assoc. by eauto.
      * left. eexists _, _, _. split; [reflexivity|]. cbn [fs emit log].
        split; [done|]. rewrite <- !app_assoc. split; [reflexivity|].
        cbn [run_host run_port ssl_context].
        unfold printed, looked_up, made_dirs; cbn [omap list_omap app].
        split; [done|]. split; [done|]. split; [auto|].
        split; [split; [done|by intros [_ ?]]|]. split; [|done].
        split; [done|]. intros _. rewrite !elem_of_cons. auto.
  - destruct (stdout env
                (u "[!] WARNING: SSL Certs not found. Serving HTTP (Insecure)."))
      as [e|] eqn:Hline.
    + right. eexists e, _, _, _. split; [reflexivity|]. split; [done|].
      cbn [fs emit log]. rewrite <- !app_assoc. by eauto.
    + left. eexists _, _, _. split; [reflexivity|]. cbn [fs emit log].
      split; [done|]. rewrite <- !app_assoc. split; [reflexivity|].
      cbn [run_host run_port ssl_context].
      unfold printed, looked_up, made_dirs; cbn [omap list_omap app].
      split; [done|]. split; [done|]. split; [auto|].
      split; [split; [done|by intros [? _]]|]. split; [|done].
      split; [done|]. intros _. rewrite !elem_of_cons. auto.
Qed.

(** X15: the banner tells whether the default key is in use.  The first line
    the main block prints ends in "NO" or in "YES", and in "NO" exactly when
    a request that carries the token CHANGE_ME_IN_PROD passes [check_auth]:
    without a key in the environment the server starts all the same and the
    token of the source text opens the upload.  The banner is printed
    unless the standard output refuses it, in which case the block ends at
    once with the exception of [print]. *)
Theorem banner_default_key (w : World) :
  ∃ flag,
    (flag = u "NO" ∨ flag = u "YES")
    ∧ (flag = u "NO" ↔
       ∀ request, auth_token request = Some (u "CHANGE_ME_IN_PROD") →
                  check_auth env request = true)
    ∧ ((∃ rest,
          printed (log (snd (main env w)))
          = printed (log w)
            ++ (u "[*] ET Secure Server v9.0. API Key Active: " ++ flag)
               :: rest)
       ∨ (∃ e,
            stdout env (u "[*] ET Secure Server v9.0. API Key Active: "
                          ++ flag) = Some e
            ∧ main env w = (Raised e, w))).
Proof.
  unfold main, print, os_path_exists.
  unfold mbind, M_bind, bind, mret, M_ret, ret. cbn [fs emit log].
  set (key := API_KEY (ET_API_KEY env)).
  assert (∀ flag,
    (flag = u "NO" ↔ key = u "CHANGE_ME_IN_PROD") →
    flag = u "NO" ↔
    ∀ request, auth_token request = Some (u "CHANGE_ME_IN_PROD") →
               check_auth env request = true) as Hflag.
  { intros flag Hiff. rewrite Hiff. unfold check_auth. fold key. split.
    - intros -> request ->. by apply bool_decide_eq_true_2.
    - intros H.
      specialize (H {| auth_token := Some (u "CHANGE_ME_IN_PROD");
                       body := Aborted OSError |} eq_refl).
      cbn [auth_token] in H. apply bool_decide_eq_true in H.
      by injection H. }
  unfold pystr_eqb. fold key.
  destruct (decide (key = u "CHANGE_ME_IN_PROD")) as [Hkey|Hkey];
    [rewrite (bool_decide_eq_true_2 _ Hkey); exists (u "NO")
    |rewrite (bool_decide_eq_false_2 _ Hkey); exists (u "YES")];
    cbn [negb];
    (split; [auto|]); (split; [apply Hflag; split; done|]);
    (destruct (stdout env (u "[*] ET Secure Server v9.0. API Key Active: "
                             ++ _)) as [e|] eqn:Hbanner;
     [right; by exists e|left]);
    cbn [fs emit log];
    fold (exists_on (fs w) (u "cert.pem"));
    (destruct (exists_on (fs w) (u "cert.pem")); cbn [fs emit log];
     [fold (exists_on (fs w) (u "key.pem"));
      destruct (exists_on (fs w) (u "key.pem"))|]);
    match goal with
    | |- context [stdout env ?l] => destruct (stdout env l)
    end;
    cbn [snd log emit fs]; unfold printed; rewrite !omap_app;
    cbn [omap list_omap]; rewrite ?app_nil_r, <- ?app_assoc;
    eexists; reflexivity.
Qed.

End Process.

(** ** Requests in ASCII

    The tables are consulted only on strings with a code point outside ASCII:
    on a request whose file name is ASCII text every instance of
    [UnicodeData] gives the run of [ascii_tables]. *)

Lemma rsplit_extension_part (name ext : pystr) :
  str_rsplit1 46 name !! 1%nat = Some ext → ∀ c, c ∈ ext → c ∈ name.
Proof.
  intros H c Hc.
  destruct (decide (46 ∈ name)) as [Hdot|Hdot].
  - destruct (last_cut_exists 46 name Hdot) as (stem & ext' & -> & Hext).
    rewrite str_rsplit1_spec in H by done. injection H as ->.
    rewrite elem_of_app, elem_of_cons. auto.
  - by rewrite str_rsplit1_none in H.
Qed.

Lemma allowed_file_ascii (U : UnicodeData) (name : pystr) :
  forallb is_ascii name = true →
  @allowed_file U name = @allowed_file ascii_tables name.
Proof.
  intros Hname. unfold allowed_file. f_equal.
  destruct (str_rsplit1 46 name !! 1%nat) as [ext|] eqn:E; [|done].
  assert (forallb is_ascii ext = true) as Hext.
  { apply forallb_forall. intros c Hc%list_elem_of_In.
    apply (proj1 (forallb_forall _ _) Hname), list_elem_of_In.
    by eapply rsplit_extension_part. }
  unfold str_lower. by rewrite Hext.
Qed.

Lemma secure_filename_ascii (U : UnicodeData) (name : pystr) :
  forallb is_ascii name = true →
  @secure_filename U name = @secure_filename ascii_tables name.
Proof.
  intros Hname. unfold secure_filename, normalize_NFKD. by rewrite Hname.
Qed.

Lemma upload_file_ascii (U : UnicodeData) (env : Env) (request : Request)
    (w : World) :
  (∀ form file, body request = Complete form → file_part form = Some file →
                forallb is_ascii (filename file) = true) →
  @upload_file U env request w = @upload_file ascii_tables env request w.
Proof.
  intros Hascii. unfold upload_file, request_files.
  destruct (check_auth env request); [|done].
  destruct (body request) as [form|e]; [|done].
  unfold mbind, M_bind, bind, mret, M_ret, ret.
  destruct (file_part form) as [file|] eqn:Hfile; [|done].
  specialize (Hascii form file eq_refl Hfile).
  by rewrite (allowed_file_ascii U), (secure_filename_ascii U).
Qed.

(** ** Runs on concrete requests *)

Example sanitize_traversal :
  secure_filename (U := ascii_tables) (u "../../etc/passwd .csv")
  = u "etc_passwd_.csv".
Proof. reflexivity. Qed.

Example check_reads_client_name :
  allowed_file (U := ascii_tables) (u "x.csv.") = false
  ∧ allowed_file (U := ascii_tables)
      (secure_filename (U := ascii_tables) (u "x.csv.")) = true.
Proof. split; reflexivity. Qed.

(** A request with a guessed token. *)
Lemma upload_unauthorized_witness :
  let env := demo_env all_ok ZipIntact in
  let request := demo_request (Some (u "guess")) (demo_form "r.zip" "note") in
  auth_token request ≠ Some (API_KEY (ET_API_KEY env))
  ∧ upload_file (U := ascii_tables) env request demo_world
    = (Done (jsonify "error" "Unauthorized" 401), demo_world).
Proof.
  split; [vm_compute; discriminate|].
  apply (upload_unauthorized (U := ascii_tables)). vm_compute. discriminate.
Defined.

(** A request without a file part. *)
Lemma upload_missing_file_witness :
  let env := demo_env all_ok ZipIntact in
  let form := {| file_part := None; description_field := None |} in
  upload_file (U := ascii_tables) env (demo_request secret form) demo_world
  = (Done (jsonify "error" "No file part" 400), demo_world).
Proof.
  apply (upload_missing_file (U := ascii_tables) _ _
           {| file_part := None; description_field := None |});
    [reflexivity|reflexivity|by left].
Defined.

(** A text file is refused. *)
Lemma upload_type_check_witness :
  let env := demo_env all_ok ZipIntact in
  let request := demo_request secret (demo_form "notes.txt" "") in
  upload_file (U := ascii_tables) env request demo_world
  = (Done (jsonify "error" "Invalid file type" 400), demo_world).
Proof.
  apply (upload_type_check (U := ascii_tables) (demo_env all_ok ZipIntact)
           (demo_request secret (demo_form "notes.txt" ""))
           (demo_form "notes.txt" "")
           {| filename := u "notes.txt"; stream := [x50; x4b]%byte |}
           demo_world);
    [reflexivity|reflexivity|reflexivity|vm_compute; discriminate|].
  intros Hex. apply (allowed_file_spec (U := ascii_tables)) in Hex.
  vm_compute in Hex. discriminate.
Defined.

(** A report in CSV, sent at 09:05:59 on 2024-03-07. *)
Lemma upload_stores_report_witness :
  let env := demo_env all_ok ZipIntact in
  let request := demo_request secret (demo_form "q3 report.csv" "") in
  let w' := snd (upload_file (U := ascii_tables) env request demo_world) in
  ∃ new,
    log w' = new
    ∧ saved_reports new
      = [(u "received_reports/2024-03-07/090559_q3_report.csv", [x50; x4b]%byte)]
    ∧ files (fs w') !! u "received_reports/2024-03-07/090559_q3_report.csv"
      = Some (Bytes [x50; x4b]%byte).
Proof.
  destruct (upload_stores_report (U := ascii_tables)
              (demo_env all_ok ZipIntact)
              (demo_request secret (demo_form "q3 report.csv" ""))
              (demo_form "q3 report.csv" "")
              {| filename := u "q3 report.csv"; stream := [x50; x4b]%byte |}
              demo_world
              (snd (upload_file (U := ascii_tables) (demo_env all_ok ZipIntact)
                      (demo_request secret (demo_form "q3 report.csv" ""))
                      demo_world))
              (jsonify "message" "Secure upload successful" 201))
    as (new & Hlog & Hsaved & Hfile & _);
    [reflexivity|reflexivity|reflexivity|reflexivity
    |vm_compute; reflexivity|reflexivity|].
  exists new. split; [exact Hlog|]. split; [exact Hsaved|exact Hfile].
Defined.

(** An archive with a bad member. *)
Lemma upload_bad_zip_witness :
  let env := demo_env all_ok (ZipBadMember (u "data.bin")) in
  let request := demo_request secret (demo_form "r.zip" "note") in
  ∃ msg w',
    upload_file (U := ascii_tables) env request demo_world
      = (Done (jsonify "error" msg 400), w')
    ∧ msg = "Corrupted ZIP"%string
    ∧ files (fs w') !! u "received_reports/2024-03-07/090559_r.zip"
      = Some (Bytes [x50; x4b]%byte).
Proof.
  apply (upload_bad_zip (U := ascii_tables)
           (demo_env all_ok (ZipBadMember (u "data.bin")))
           (demo_request secret (demo_form "r.zip" "note"))
           (demo_form "r.zip" "note")
           {| filename := u "r.zip"; stream := [x50; x4b]%byte |}
           demo_world);
    [reflexivity|reflexivity|reflexivity|reflexivity|reflexivity
    |split; [vm_compute; discriminate|reflexivity]
    |vm_compute; discriminate].
Defined.

(** A report with the description "note". *)
Lemma upload_description_witness :
  let env := demo_env all_ok ZipIntact in
  let request := demo_request secret (demo_form "r.csv" "note") in
  let w' := snd (upload_file (U := ascii_tables) env request demo_world) in
  written_descriptions (log w')
    = [(u "received_reports/2024-03-07/090559_desc.txt", u "note")]
  ∧ files (fs w') !! u "received_reports/2024-03-07/090559_desc.txt"
    = Some (Utf8Text (u "note")).
Proof.
  destruct (upload_description (U := ascii_tables)
              (demo_env all_ok ZipIntact)
              (demo_request secret (demo_form "r.csv" "note"))
              demo_world
              (snd (upload_file (U := ascii_tables) (demo_env all_ok ZipIntact)
                      (demo_request secret (demo_form "r.csv" "note"))
                      demo_world))
              (jsonify "message" "Secure upload successful" 201))
    as (form & new & Hbody & Hlog & Hwritten & _);
    [vm_compute; reflexivity|reflexivity|].
  injection Hbody as <-. change (log demo_world ++ new) with new in Hlog.
  cbv zeta. rewrite Hlog. apply Hwritten. vm_compute. discriminate.
Defined.

(** The write of the description fails; the archive cannot be opened. *)
Lemma upload_errors_witness :
  let request := demo_request secret (demo_form "r.zip" "note") in
  fst (upload_file (U := ascii_tables)
         (demo_env description_fails ZipIntact) request demo_world)
    = Raised OSError
  ∧ fst (upload_file (U := ascii_tables)
           (demo_env all_ok ZipRaises) request demo_world)
    = Done (jsonify "error" "Invalid ZIP" 400).
Proof.
  split.
  - apply (upload_errors (U := ascii_tables)
             (demo_env description_fails ZipIntact)
             (demo_request secret (demo_form "r.zip" "note"))
             (demo_form "r.zip" "note")
             {| filename := u "r.zip"; stream := [x50; x4b]%byte |}
             demo_world)
      with (left := None);
      [reflexivity|reflexivity|reflexivity|reflexivity
      |split; [vm_compute; discriminate|reflexivity]
      |reflexivity|vm_compute; discriminate|reflexivity].
  - apply (upload_errors (U := ascii_tables)
             (demo_env all_ok ZipRaises)
             (demo_request secret (demo_form "r.zip" "note"))
             (demo_form "r.zip" "note")
             {| filename := u "r.zip"; stream := [x50; x4b]%byte |}
             demo_world);
      [reflexivity|reflexivity|reflexivity|reflexivity
      |split; [vm_compute; discriminate|reflexivity]
      |reflexivity|reflexivity].
Defined.

(** "report.ZIP" with a body that is no archive. *)
Lemma upload_uppercase_zip_witness :
  let env := demo_env all_ok ZipRaises in
  let request := demo_request secret (demo_form "report.ZIP" "") in
  allowed_file (U := ascii_tables) (u "report.ZIP") = true
  ∧ str_endswith (secure_filename (U := ascii_tables) (u "report.ZIP"))
      (u ".zip") = false
  ∧ ∃ w' new,
      upload_file (U := ascii_tables) env request demo_world
        = (Done (jsonify "message" "Secure upload successful" 201), w')
      ∧ log w' = new
      ∧ opened_archives new = []
      ∧ saved_reports new
        = [(u "received_reports/2024-03-07/090559_report.ZIP",
            [x50; x4b]%byte)]
      ∧ files (fs w') !! u "received_reports/2024-03-07/090559_report.ZIP"
        = Some (Bytes [x50; x4b]%byte).
Proof.
  apply (upload_uppercase_zip (U := ascii_tables)
           (demo_env all_ok ZipRaises)
           (demo_request secret (demo_form "report.ZIP" ""))
           (demo_form "report.ZIP" "")
           {| filename := u "report.ZIP"; stream := [x50; x4b]%byte |}
           demo_world (u "report") (u "ZIP"));
    [reflexivity|reflexivity|reflexivity|reflexivity|reflexivity
    |vm_compute; discriminate
    |split; [vm_compute; discriminate|reflexivity]
    |by left
    |reflexivity].
Defined.

(** The description of a rejected archive is dropped, though the report
    stays on disk: the request came with the description "note", the answer is
    400, the report is stored and no description is.  The names are ASCII, so
    by [upload_file_ascii] the run is the same for every instance of the
    tables. *)
Lemma description_dropped_with_bad_zip :
  let env := demo_env all_ok ZipRaises in
  let form := demo_form "r.zip" "note" in
  let run := upload_file (U := ascii_tables) env
               (demo_request secret form) demo_world in
  default [] (description_field form) = u "note"
  ∧ fst run = Done (jsonify "error" "Invalid ZIP" 400)
  ∧ files (fs (snd run)) !! u "received_reports/2024-03-07/090559_r.zip"
    = Some (Bytes [x50; x4b]%byte)
  ∧ written_descriptions (log (snd run)) = []
  ∧ files (fs (snd run)) !! u "received_reports/2024-03-07/090559_desc.txt"
    = None.
Proof. vm_compute. repeat split. Qed.

(** A failed write of the description changes the response: the same
    request is answered 201 when the write succeeds, and has no response (the
    exception leaves the handler) when it fails.  Again the run is the same
    for every instance of the tables. *)
Lemma description_failure_not_tolerated :
  let request := demo_request secret (demo_form "r.csv" "note") in
  fst (upload_file (U := ascii_tables)
         (demo_env all_ok ZipIntact) request demo_world)
    = Done (jsonify "message" "Secure upload successful" 201)
  ∧ fst (upload_file (U := ascii_tables)
           (demo_env description_fails ZipIntact) request demo_world)
    = Raised OSError.
Proof. vm_compute. split; reflexivity. Qed.

(** ** Runs for the further properties *)

Lemma stripped_ends (chars k : pystr) (a z : N) :
  a ∉ chars → z ∉ chars → stripped chars (a :: k ++ [z]).
Proof.
  intros Ha Hz. split.
  - by intros c r [= <- _].
  - intros c r H. change (a :: k ++ [z]) with ((a :: k) ++ [z]) in H.
    apply app_inj_2 in H as [_ [= <-]]; done.
Qed.

(** A name that is not on the allow-list is answered with one of the fixed
    responses. *)
Lemma upload_answers_witness :
  jsonify "error" "Invalid file type" 400 ∈ responses.
Proof.
  apply (upload_answers (U := ascii_tables) (demo_env all_ok ZipIntact)
           (demo_request secret (demo_form "report.exe" "")) demo_world).
  vm_compute. reflexivity.
Defined.


(** A second report on 2024-03-07. *)
Lemma day_folder_made_once_witness :
  let env := demo_env all_ok ZipIntact in
  let w1 := snd (upload_file (U := ascii_tables) env
                   (demo_request secret (demo_form "r.csv" "")) demo_world) in
  ∃ new,
    log (snd (upload_file (U := ascii_tables) env
                (demo_request secret (demo_form "s.zip" "note")) w1))
    = log w1 ++ new
    ∧ made_dirs new = [].
Proof.
  apply (day_folder_made_once (U := ascii_tables) (demo_env all_ok ZipIntact)
           (demo_request secret (demo_form "r.csv" ""))
           (demo_request secret (demo_form "s.zip" "note"))
           demo_world
           (snd (upload_file (U := ascii_tables) (demo_env all_ok ZipIntact)
                   (demo_request secret (demo_form "r.csv" "")) demo_world))
           (jsonify "message" "Secure upload successful" 201));
    [vm_compute; reflexivity|reflexivity|reflexivity].
Defined.

(** Two reports named "a b.csv" and "a_b.csv" in the same second. *)
Lemma same_second_overwrites_witness :
  let env := demo_env all_ok ZipIntact in
  let file1 := {| filename := u "a b.csv"; stream := [x50; x4b]%byte |} in
  let file2 := {| filename := u "a_b.csv"; stream := [x01]%byte |} in
  let form1 := {| file_part := Some file1; description_field := None |} in
  let form2 := {| file_part := Some file2; description_field := None |} in
  let w1 := snd (upload_file (U := ascii_tables) env
                   (demo_request secret form1) demo_world) in
  let w2 := snd (upload_file (U := ascii_tables) env
                   (demo_request secret form2) w1) in
  save_path (U := ascii_tables) env file2 w1
  = save_path (U := ascii_tables) env file1 demo_world
  ∧ files (fs w1) !! save_path (U := ascii_tables) env file1 demo_world
    = Some (Bytes [x50; x4b]%byte)
  ∧ files (fs w2) !! save_path (U := ascii_tables) env file1 demo_world
    = Some (Bytes [x01]%byte).
Proof.
  cbv zeta.
  apply (same_second_overwrites (U := ascii_tables)
           (demo_env all_ok ZipIntact)
           (demo_request secret
              {| file_part := Some {| filename := u "a b.csv";
                                      stream := [x50; x4b]%byte |};
                 description_field := None |})
           (demo_request secret
              {| file_part := Some {| filename := u "a_b.csv";
                                      stream := [x01]%byte |};
                 description_field := None |})
           {| file_part := Some {| filename := u "a b.csv";
                                   stream := [x50; x4b]%byte |};
              description_field := None |}
           {| file_part := Some {| filename := u "a_b.csv";
                                   stream := [x01]%byte |};
              description_field := None |}
           {| filename := u "a b.csv"; stream := [x50; x4b]%byte |}
           {| filename := u "a_b.csv"; stream := [x01]%byte |}
           demo_world _ _
           (jsonify "message" "Secure upload successful" 201)
           (jsonify "message" "Secure upload successful" 201));
    [reflexivity|reflexivity|reflexivity|reflexivity
    |vm_compute; reflexivity|reflexivity
    |vm_compute; reflexivity|reflexivity
    |reflexivity|reflexivity|vm_compute; reflexivity].
Defined.

(** Equal paths for "a b.csv" and "a_b.csv": the sanitized names agree. *)
Lemma save_path_inj_witness :
  let file1 := {| filename := u "a b.csv"; stream := [x50; x4b]%byte |} in
  let file2 := {| filename := u "a_b.csv"; stream := [x01]%byte |} in
  (2024 = 2024 ∧ 3 = 3 ∧ 7 = 7) ∧ (9 = 9 ∧ 5 = 5 ∧ 59 = 59)
  ∧ secure_filename (U := ascii_tables) (filename file1)
    = secure_filename (U := ascii_tables) (filename file2).
Proof.
  apply (save_path_inj (U := ascii_tables) (demo_env all_ok ZipIntact)
           {| filename := u "a b.csv"; stream := [x50; x4b]%byte |}
           {| filename := u "a_b.csv"; stream := [x01]%byte |}
           demo_world demo_world);
    [vm_compute; repeat split|vm_compute; repeat split
    |vm_compute; repeat split|vm_compute; repeat split
    |vm_compute; reflexivity].
Defined.

(** "report-2.zip" is stored under its own name. *)
Lemma secure_filename_clean_witness :
  let env := demo_env all_ok ZipIntact in
  let file := {| filename := u "report-2.zip"; stream := [x50; x4b]%byte |} in
  secure_filename (U := ascii_tables) (filename file) = filename file
  ∧ save_path (U := ascii_tables) env file demo_world
    = daily_folder env demo_world ++ [os.sep] ++ timestamp env demo_world
      ++ u "_" ++ filename file.
Proof.
  apply (secure_filename_clean (U := ascii_tables) (demo_env all_ok ZipIntact)
           {| filename := u "report-2.zip"; stream := [x50; x4b]%byte |}
           demo_world).
  - vm_compute. repeat constructor.
  - apply (stripped_ends (u "._") (u "eport-2.zi") 114 112);
      apply alnum_not_stripped; reflexivity.
Defined.

(** "../.zip" with a body that is no archive. *)
Lemma upload_untested_zip_witness :
  let env := demo_env all_ok ZipRaises in
  let request := demo_request secret (demo_form "../.zip" "") in
  allowed_file (U := ascii_tables) (u "../.zip") = true
  ∧ secure_filename (U := ascii_tables) (u "../.zip") = u "zip"
  ∧ ∃ w' new,
      upload_file (U := ascii_tables) env request demo_world
        = (Done (jsonify "message" "Secure upload successful" 201), w')
      ∧ log w' = new
      ∧ opened_archives new = []
      ∧ files (fs w') !! (daily_folder env demo_world ++ [os.sep]
                            ++ timestamp env demo_world ++ u "_zip")
        = Some (Bytes [x50; x4b]%byte).
Proof.
  apply (upload_untested_zip (U := ascii_tables) (demo_env all_ok ZipRaises)
           (demo_request secret (demo_form "../.zip" ""))
           (demo_form "../.zip" "")
           {| filename := u "../.zip"; stream := [x50; x4b]%byte |}
           demo_world (u "../"));
    [reflexivity|reflexivity|reflexivity|reflexivity
    |repeat (constructor; [by vm_compute|]); constructor
    |split; [vm_compute; discriminate|reflexivity]
    |by left
    |reflexivity].
Defined.

(** "my report-2.zip", stored and tested. *)
Lemma upload_zip_tested_witness :
  let env := demo_env all_ok ZipIntact in
  let file := {| filename := u "my report-2.zip"; stream := [x50; x4b]%byte |} in
  let request :=
    demo_request secret {| file_part := Some file; description_field := None |} in
  let w' := snd (upload_file (U := ascii_tables) env request demo_world) in
  str_endswith (secure_filename (U := ascii_tables) (filename file)) (u ".zip")
  = true
  ∧ zip_probe env (save_path (U := ascii_tables) env file demo_world)
      (Some (Bytes (stream file))) = ZipIntact
  ∧ EvZipOpen (save_path (U := ascii_tables) env file demo_world) ∈ log w'.
Proof.
  cbv zeta.
  apply (upload_zip_tested (U := ascii_tables) (demo_env all_ok ZipIntact)
           (demo_request secret
              {| file_part := Some {| filename := u "my report-2.zip";
                                      stream := [x50; x4b]%byte |};
                 description_field := None |})
           {| file_part := Some {| filename := u "my report-2.zip";
                                   stream := [x50; x4b]%byte |};
              description_field := None |}
           {| filename := u "my report-2.zip"; stream := [x50; x4b]%byte |}
           demo_world _
           (jsonify "message" "Secure upload successful" 201)
           (u "my ") (u "eport-2") 114);
    [reflexivity|reflexivity|reflexivity|by left
    |vm_compute; repeat constructor
    |vm_compute; reflexivity|reflexivity].
Defined.

(** The first start in an empty directory, and a restart. *)
Lemma startup_once_witness :
  let env := demo_env all_ok ZipIntact in
  let w := {| fs := {| dirs := ∅; files := ∅ |}; ticks := 0; log := [] |} in
  let w1 := snd (startup env w) in
  exists_on (fs w1) UPLOAD_FOLDER = true
  ∧ files (fs w1) = files (fs w)
  ∧ (dirs (fs w1) = dirs (fs w)
     ∨ (exists_on (fs w) UPLOAD_FOLDER = false
        ∧ dirs (fs w1) = dirs (fs w) ∪ {[ UPLOAD_FOLDER ]}))
  ∧ ∀ env' : Env,
      startup env' w1 = (Done (), emit (EvExists UPLOAD_FOLDER) w1).
Proof.
  apply (startup_once (demo_env all_ok ZipIntact)
           {| fs := {| dirs := ∅; files := ∅ |}; ticks := 0; log := [] |}).
  vm_compute. reflexivity.
Defined.

(** The report "r.csv" and the description of the same second. *)
Lemma report_not_description_witness :
  let env := demo_env all_ok ZipIntact in
  let file := {| filename := u "r.csv"; stream := [x50; x4b]%byte |} in
  allowed_file (U := ascii_tables) (filename file) = true
  ∧ save_path (U := ascii_tables) env file demo_world
    ≠ desc_path env demo_world.
Proof.
  split; [reflexivity|].
  apply (report_not_description (U := ascii_tables)
           (demo_env all_ok ZipIntact)
           {| filename := u "r.csv"; stream := [x50; x4b]%byte |}
           demo_world demo_world).
  reflexivity.
Defined.
